(** * Payment reconciliation of the wedding-services backend

    A shallow embedding of [src/controllers/client/payment.js]: the three
    request handlers [initiatePayment], [verifyPayment] and [handleWebhook],
    run against an explicit database state and an explicit description of
    the outside world (payment gateway, mailer, clock, identifier
    generators, HMAC).

    Conventions.
    - Strings are [string]; identifiers are strings, as in the schema
      ([VARCHAR(191)] primary keys).
    - JavaScript numbers are IEEE 754 binary64 values: [amount] and the two
      splits are primitive floats, and [*] is [PrimFloat.mul].
    - A request field that may be absent is an [option string]; [None]
      stands for [undefined]/[null].  Truthiness of such a field is
      [truthy]: absent and the empty string are falsy.
    - A table is a finite map from its key to the row; the key is not
      repeated inside the row.
    - A handler is a computation in the monad [M]: it threads the database,
      the response under construction and the log of outbound calls, and it
      may throw.  [try_catch] is JavaScript's [try { } catch { }].
    - Handlers run one at a time: the interleaving of two requests at an
      [await] is not modelled. *)

From Stdlib Require Import PrimFloat ZArith String Ascii List.
From stdpp Require Import base option gmap strings list fin_maps.
From stdpp Require Import sorting.

Open Scope string_scope.
Open Scope Z_scope.

(* 0.1 and 0.9 denote the nearest binary64 values, as in JavaScript. *)
Set Warnings "-inexact-float".

(** ** Data model (prisma/migrations/20250513132839_/migration.sql) *)

(** [ENUM('PENDING', 'COMPLETED', 'FAILED', 'REFUNDED')] of table Payment. *)
Inductive PaymentStatus := PENDING | COMPLETED | FAILED | REFUNDED.

(** [ENUM('PENDING', 'CONFIRMED', 'COMPLETED', 'CANCELLED')] of table
    Booking; the prefix keeps the two enumerations apart. *)
Inductive BookingStatus :=
  | B_PENDING | B_CONFIRMED | B_COMPLETED | B_CANCELLED.

Global Instance PaymentStatus_eq_dec : EqDecision PaymentStatus.
Proof. solve_decision. Defined.

Global Instance BookingStatus_eq_dec : EqDecision BookingStatus.
Proof. solve_decision. Defined.

Record Payment := mkPayment {
  amount : float;
  status : PaymentStatus;
  method : string;
  transactionId : option string;
  bookingId : option string;
  userId : string;
  recipientId : string;
  clientId : option string;
  vendorId : option string;
  adminSplit : option float;
  vendorSplit : option float;
  createdAt : Z;
  updatedAt : Z
}.

Record Booking := mkBooking {
  b_clientId : string;
  b_serviceId : string;
  b_eventDate : Z;
  b_location : string;
  b_status : BookingStatus
}.

Record Service := mkService {
  s_name : string;
  s_vendorId : string
}.

Record Vendor := mkVendor {
  v_userId : string;
  v_businessName : string;
  chapaSubaccountId : option string
}.

Record Client := mkClient {
  c_id : string
}.

Record ChapaSubaccount := mkChapaSubaccount {
  accountId : string;
  sub_type : string
}.

(** The database.  [clients] is keyed by [userId] (unique index
    [Client_userId_key]), the only column the handlers look clients up by;
    every other table is keyed by its primary key [id].  The subaccounts
    are kept as the list of rows [findFirst] scans. *)
Record DB := mkDB {
  clients : gmap string Client;
  bookings : gmap string Booking;
  services : gmap string Service;
  vendors : gmap string Vendor;
  chapaSubaccounts : list ChapaSubaccount;
  payments : gmap string Payment
}.

(** ** JavaScript helpers *)

(** [String.prototype.toLowerCase] on the ASCII range; bytes above 127
    (UTF-8 of non-ASCII characters) are left as they are.  No character
    outside ASCII lowercases to one of the letters of the four words the
    handlers compare with, so the comparison below is decided as in
    JavaScript. *)
Definition toLowerCase_ascii (c : ascii) : ascii :=
  let n := N_of_ascii c in
  if ((65 <=? n) && (n <=? 90))%N then ascii_of_N (n + 32) else c.

Fixpoint toLowerCase (s : string) : string :=
  match s with
  | EmptyString => EmptyString
  | String c r => String (toLowerCase_ascii c) (toLowerCase r)
  end.

(** The [switch (status.toLowerCase())] of [verifyPayment] (lines 180-194). *)
Definition verifyPayment_paymentStatus (gw_status : string) : PaymentStatus :=
  let s := toLowerCase gw_status in
  if String.eqb s "success" then COMPLETED
  else if String.eqb s "failed" then FAILED
  else if String.eqb s "fail" then FAILED
  else if String.eqb s "pending" then PENDING
  else FAILED.

(** The [switch (status.toLowerCase())] of [handleWebhook] (lines 352-367),
    a second copy of the same statement. *)
Definition handleWebhook_paymentStatus (gw_status : string) : PaymentStatus :=
  let s := toLowerCase gw_status in
  if String.eqb s "success" then COMPLETED
  else if String.eqb s "failed" then FAILED
  else if String.eqb s "fail" then FAILED
  else if String.eqb s "pending" then PENDING
  else FAILED.

(** ** The outside world *)

(** Body of [POST /transaction/initialize]; the split shares are the
    constants 10 and 90 of lines 103-104. *)
Record InitializeRequest := mkInitializeRequest {
  ir_amount : float;
  ir_tx_ref : string;
  ir_admin_subaccount : string;
  ir_admin_share : Z;
  ir_vendor_subaccount : string;
  ir_vendor_share : Z
}.

(** [response.data] of [GET /transaction/verify/:tx_ref]. *)
Record VerifyResponse := mkVerifyResponse {
  vr_status : option string;
  vr_data : option string
}.

(** The two notifier entry points of [utils/emailService.js], with the
    identifiers of the rows they are called on; the vendor is [None] when
    the included relation is [null]. *)
Inductive Notification :=
  | sendPaymentCompletionToVendor (paymentId bookingId : string) (vendor : option string)
  | sendNewBookingToVendor (bookingId : string) (vendor : option string).

Inductive Outbound :=
  | ChapaInitialize (r : InitializeRequest)
  | ChapaVerify (tx_ref : string)
  | Notify (n : Notification).

(** Everything a handler reads that is not the database or the request.
    A gateway call answers [None] when the HTTP client rejects;
    [chapa_initialize] answers [Some None] for a response without
    [data.data], [Some (Some url)] otherwise.  [notifier n] is [true] when
    the promise of the notifier call resolves and [false] when it rejects. *)
Record World := mkWorld {
  now : Z;
  generated_id : string;
  uuid : string;
  CHAPA_WEBHOOK_SECRET : option string;
  createHmac_sha256_hex : string -> string -> string;
  chapa_initialize : InitializeRequest -> option (option (option string));
  chapa_verify : string -> option VerifyResponse;
  notifier : Notification -> bool
}.

(** ** Handler monad *)

Inductive JsError :=
  | Error (message : string)
  | TypeError
  | PrismaError
  | AxiosError
  | MailError.

(** What [res.json] / [res.send] was given. *)
Inductive Body :=
  | Text (s : string)
  | InitiateJson (checkoutUrl : option string) (paymentId tx_ref : string)
  | VerifyJson (paymentId : string) (st : PaymentStatus) (amt : float)
      (created updated : Z)
      (booking : option (string * BookingStatus * Z * string * string))
      (chapaData : option string).

Record St := mkSt {
  db : DB;
  statusCode : Z;
  sent : option Body;
  outbound : list Outbound
}.

Inductive Res (A : Type) :=
  | Ok (a : A)
  | Throw (e : JsError).
Arguments Ok {A} a.
Arguments Throw {A} e.

Definition M (A : Type) : Type := St -> Res A * St.

Global Instance M_ret : MRet M := fun A a s => (Ok a, s).

Global Instance M_bind : MBind M := fun A B f m s =>
  match m s with
  | (Ok a, s') => f a s'
  | (Throw e, s') => (Throw e, s')
  end.

Definition throw {A} (e : JsError) : M A := fun s => (Throw e, s).

(** [try { body } catch (error) { handler }]; the handler does not look at
    the error object except to log it. *)
Definition try_catch {A} (body : M A) (handler : M A) : M A := fun s =>
  match body s with
  | (Ok a, s') => (Ok a, s')
  | (Throw _, s') => handler s'
  end.

Definition get_db : M DB := fun s => (Ok (db s), s).

Definition set_db (d : DB) : M unit := fun s =>
  (Ok tt, mkSt d (statusCode s) (sent s) (outbound s)).

(** [res.status(n)] *)
Definition res_status (n : Z) : M unit := fun s =>
  (Ok tt, mkSt (db s) n (sent s) (outbound s)).

(** [res.json(b)] / [res.send(b)] *)
Definition res_send (b : Body) : M unit := fun s =>
  (Ok tt, mkSt (db s) (statusCode s) (Some b) (outbound s)).

Definition call_out (o : Outbound) : M unit := fun s =>
  (Ok tt, mkSt (db s) (statusCode s) (sent s) (outbound s ++ [o])).

(** Reading a property of [null]/[undefined] throws a [TypeError]. *)
Definition deref {A} (x : option A) : M A :=
  match x with
  | Some a => mret a
  | None => throw TypeError
  end.

(** ** The ORM calls the handlers make *)

Definition with_payments (d : DB) (ps : gmap string Payment) : DB :=
  mkDB (clients d) (bookings d) (services d) (vendors d) (chapaSubaccounts d) ps.

Definition with_bookings (d : DB) (bs : gmap string Booking) : DB :=
  mkDB (clients d) bs (services d) (vendors d) (chapaSubaccounts d) (payments d).

(** [prisma.payment.create]: rejects when the generated key is taken. *)
Definition payment_create (id : string) (p : Payment) : M unit :=
  d ← get_db;
  match payments d !! id with
  | Some _ => throw PrismaError
  | None => set_db (with_payments d (<[id := p]> (payments d)))
  end.

(** [prisma.payment.update({ where: { id }, data })]: rejects when no row
    has this key, otherwise stores [f row] and returns it. *)
Definition payment_update (id : string) (f : Payment -> Payment) : M Payment :=
  d ← get_db;
  match payments d !! id with
  | None => throw PrismaError
  | Some p =>
      set_db (with_payments d (<[id := f p]> (payments d)));;
      mret (f p)
  end.

Definition booking_update (id : string) (f : Booking -> Booking) : M Booking :=
  d ← get_db;
  match bookings d !! id with
  | None => throw PrismaError
  | Some b =>
      set_db (with_bookings d (<[id := f b]> (bookings d)));;
      mret (f b)
  end.

Definition set_status (st : PaymentStatus) (p : Payment) : Payment :=
  mkPayment (amount p) st (method p) (transactionId p) (bookingId p)
    (userId p) (recipientId p) (clientId p) (vendorId p) (adminSplit p)
    (vendorSplit p) (createdAt p) (updatedAt p).

Definition set_status_updatedAt (st : PaymentStatus) (t : Z) (p : Payment) : Payment :=
  mkPayment (amount p) st (method p) (transactionId p) (bookingId p)
    (userId p) (recipientId p) (clientId p) (vendorId p) (adminSplit p)
    (vendorSplit p) (createdAt p) t.

Definition set_transactionId (tx : string) (p : Payment) : Payment :=
  mkPayment (amount p) (status p) (method p) (Some tx) (bookingId p)
    (userId p) (recipientId p) (clientId p) (vendorId p) (adminSplit p)
    (vendorSplit p) (createdAt p) (updatedAt p).

Definition set_booking_status (st : BookingStatus) (b : Booking) : Booking :=
  mkBooking (b_clientId b) (b_serviceId b) (b_eventDate b) (b_location b) st.

(** [include: { booking: true }]: the booking row the payment points to,
    with its key; [null] when [bookingId] is [NULL]. *)
Definition include_booking (d : DB) (p : Payment) : option (string * Booking) :=
  match bookingId p with
  | None => None
  | Some bid =>
      match bookings d !! bid with
      | None => None
      | Some b => Some (bid, b)
      end
  end.

(** [booking.service] and [service.vendor] of the nested includes. *)
Definition include_service (d : DB) (b : Booking) : option Service :=
  services d !! b_serviceId b.

Definition include_vendor (d : DB) (s : Service) : option (string * Vendor) :=
  match vendors d !! s_vendorId s with
  | None => None
  | Some v => Some (s_vendorId s, v)
  end.

(** [prisma.payment.findFirst({ where: { transactionId: tx_ref } })]: the
    first row, in the table's order, whose reference is [tx_ref]. *)
Definition payment_findFirst_by_transactionId (d : DB) (tx_ref : string)
  : option (string * Payment) :=
  List.find (fun kp => bool_decide (transactionId (snd kp) = Some tx_ref))
            (map_to_list (payments d)).

(** [prisma.chapaSubaccount.findFirst({ where: { type: "ADMIN" } })] *)
Definition chapaSubaccount_findFirst_admin (d : DB) : option ChapaSubaccount :=
  List.find (fun a => String.eqb (sub_type a) "ADMIN") (chapaSubaccounts d).

(** A request field that passed a [!x] test: present and not empty. *)
Definition present (x : option string) : option string :=
  match x with
  | Some s => if String.eqb s EmptyString then None else Some s
  | None => None
  end.

(** The same test on a number: [undefined], [0], [-0] and [NaN] are falsy. *)
Definition present_number (x : option float) : option float :=
  match x with
  | Some f => if (PrimFloat.eqb f 0 || PrimFloat.is_nan f)%bool then None else Some f
  | None => None
  end.

(** [await notifierCall(...)]: the call is made, and rejects or resolves
    as the world says. *)
Definition notify (w : World) (n : Notification) : M unit :=
  call_out (Notify n);;
  if notifier w n then mret tt else throw MailError.

(** ** initiatePayment (lines 9-141) *)

Record InitiateRequest := mkInitiateRequest {
  i_amount : option float;
  i_vendorId : option string;
  i_bookingId : option string;
  i_userId : option string
}.

(** The [data] of [prisma.payment.create] (lines 64-75).  The two
    timestamps are not in [data]: the row gets them at creation. *)
Definition new_payment (w : World) (amt : float)
    (vendor_id booking_id user_id : string) (client : Client) (vendor : Vendor)
  : Payment :=
  mkPayment amt PENDING "CHAPA" None (Some booking_id) user_id
    (v_userId vendor) (Some (c_id client)) (Some vendor_id)
    (Some (amt * 0.1)%float) (Some (amt * 0.9)%float) (now w) (now w).

(** [`payment-${payment.id}-${uuid()}`] (line 80) *)
Definition new_tx_ref (w : World) : string :=
  "payment-" ++ generated_id w ++ "-" ++ uuid w.

(** The body posted to the gateway (lines 93-113), without the payer's
    name, e-mail and the URLs, which no handler reads back. *)
Definition initialize_request (w : World) (amt : float)
    (adminAccount : ChapaSubaccount) (vendor_subaccount : string)
  : InitializeRequest :=
  mkInitializeRequest amt (new_tx_ref w) (accountId adminAccount) 10
    vendor_subaccount 90.

(** Lines 62-140: create the row, then ask the gateway for a checkout
    session inside [try]/[catch]. *)
Definition initiate_checkout (w : World) (amt : float)
    (vendor_id booking_id user_id : string) (client : Client) (vendor : Vendor)
    (vendor_subaccount : string) (adminAccount : ChapaSubaccount) : M unit :=
  let id := generated_id w in
  payment_create id (new_payment w amt vendor_id booking_id user_id client vendor);;
  try_catch
    (let tx_ref := new_tx_ref w in
     let r := initialize_request w amt adminAccount vendor_subaccount in
     call_out (ChapaInitialize r);;
     response ← match chapa_initialize w r with
                | None => throw AxiosError
                | Some x => mret x
                end;
     payment_update id (set_transactionId tx_ref);;
     res_status 200;;
     data ← deref response;
     res_send (InitiateJson data id tx_ref))
    (payment_update id (set_status FAILED);;
     res_status 500;;
     throw (Error "Payment initiation failed")).

Definition initiatePayment (w : World) (req : InitiateRequest) : M unit :=
  match present_number (i_amount req), present (i_vendorId req),
        present (i_bookingId req), present (i_userId req) with
  | Some amt, Some vendor_id, Some booking_id, Some user_id =>
      d ← get_db;
      match clients d !! user_id with
      | None => res_status 400;; throw (Error "Client profile not found")
      | Some client =>
          match bookings d !! booking_id with
          | None => res_status 404;; throw (Error "Booking not found")
          | Some booking =>
              if negb (String.eqb (b_clientId booking) (c_id client)) then
                res_status 403;;
                throw (Error "Unauthorized: Booking does not belong to this client")
              else
                service ← deref (include_service d booking);
                booking_vendor ← deref (include_vendor d service);
                if negb (String.eqb (fst booking_vendor) vendor_id) then
                  res_status 400;;
                  throw (Error "Vendor ID does not match the booking's vendor")
                else
                  match vendors d !! vendor_id, chapaSubaccount_findFirst_admin d with
                  | Some vendor, Some adminAccount =>
                      match present (chapaSubaccountId vendor) with
                      | Some vendor_subaccount =>
                          initiate_checkout w amt vendor_id booking_id user_id
                            client vendor vendor_subaccount adminAccount
                      | None =>
                          res_status 500;;
                          throw (Error "Payment accounts not configured")
                      end
                  | _, _ =>
                      res_status 500;;
                      throw (Error "Payment accounts not configured")
                  end
          end
      end
  | _, _, _, _ =>
      res_status 400;;
      throw (Error "Amount, vendor ID, booking ID, and user ID are required")
  end.

(** ** verifyPayment (lines 144-308) *)

Record VerifyRequest := mkVerifyRequest {
  v_paymentId : option string;
  v_tx_ref : option string;
  v_user : string
}.

(** Lines 257-278 and 424-443: the two notifier calls inside their own
    [try]/[catch].  Each call evaluates [booking.service.vendor] first. *)
Definition send_notifications (w : World) (d : DB) (payment_id booking_id : string)
    (b : Booking) : M unit :=
  try_catch
    (service ← deref (include_service d b);
     let vendor := fst <$> include_vendor d service in
     notify w (sendPaymentCompletionToVendor payment_id booking_id vendor);;
     notify w (sendNewBookingToVendor booking_id vendor))
    (mret tt).

(** Lines 280-302: the JSON body of the answer. *)
Definition verify_response (d : DB) (id : string) (paymentStatus : PaymentStatus)
    (updatedPayment : Payment) (data : option string) : M unit :=
  res_status 200;;
  bk ← match include_booking d updatedPayment with
       | Some (bid, b) =>
           service ← deref (include_service d b);
           vendor ← deref (include_vendor d service);
           mret (Some (bid, b_status b, b_eventDate b, s_name service,
                       v_businessName (snd vendor)))
       | None => mret None
       end;
  res_send (VerifyJson id paymentStatus (amount updatedPayment)
              (createdAt updatedPayment) (updatedAt updatedPayment) bk data).

(** Lines 175-307, the body of the [try]. *)
Definition verify_reconcile (w : World) (id tx_ref : string)
    (booking : option (string * Booking)) : M unit :=
  call_out (ChapaVerify tx_ref);;
  response ← match chapa_verify w tx_ref with
             | None => throw AxiosError
             | Some r => mret r
             end;
  gw_status ← deref (vr_status response);
  let paymentStatus := verifyPayment_paymentStatus gw_status in
  payment_update id (set_status_updatedAt paymentStatus (now w));;
  match booking with
  | Some (bid, b) =>
      if bool_decide (paymentStatus = COMPLETED) && bool_decide (b_status b = B_PENDING)
      then booking_update bid (set_booking_status B_CONFIRMED);; mret tt
      else mret tt
  | None => mret tt
  end;;
  d ← get_db;
  updatedPayment ← deref (payments d !! id);
  match include_booking d updatedPayment with
  | Some (bid, b) =>
      if bool_decide (paymentStatus = COMPLETED)
      then send_notifications w d id bid b
      else mret tt
  | None => mret tt
  end;;
  verify_response d id paymentStatus updatedPayment (vr_data response).

Definition verifyPayment (w : World) (req : VerifyRequest) : M unit :=
  match present (v_paymentId req), present (v_tx_ref req) with
  | Some id, Some tx_ref =>
      d ← get_db;
      match payments d !! id with
      | None => res_status 404;; throw (Error "Payment not found")
      | Some payment =>
          if negb (String.eqb (userId payment) (v_user req)) then
            res_status 403;;
            throw (Error "Unauthorized: Payment does not belong to this user")
          else
            try_catch
              (verify_reconcile w id tx_ref (include_booking d payment))
              (res_status 500;; throw (Error "Payment verification failed"))
      end
  | _, _ =>
      res_status 400;;
      throw (Error "Payment ID and transaction reference are required")
  end.

(** ** handleWebhook (lines 311-456) *)

(** [payload] is [JSON.stringify(req.body)], the text the signature is
    computed over; [wh_tx_ref] and [wh_status] are the two fields read from
    [req.body]. *)
Record WebhookRequest := mkWebhookRequest {
  chapa_signature : option string;
  payload : string;
  wh_tx_ref : option string;
  wh_status : option string
}.

(** Lines 334-451, after the signature has been accepted. *)
Definition webhook_reconcile (w : World) (req : WebhookRequest) : M unit :=
  match present (wh_tx_ref req) with
  | None => res_status 400;; res_send (Text "Bad Request: Missing tx_ref")
  | Some tx_ref =>
      d ← get_db;
      match payment_findFirst_by_transactionId d tx_ref with
      | None => res_status 404;; res_send (Text "Payment not found")
      | Some (id, payment) =>
          gw_status ← deref (wh_status req);
          let paymentStatus := handleWebhook_paymentStatus gw_status in
          updatedPayment ← payment_update id (set_status_updatedAt paymentStatus (now w));
          d1 ← get_db;
          match include_booking d1 updatedPayment with
          | Some (bid, b) =>
              if bool_decide (paymentStatus = COMPLETED) && bool_decide (b_status b = B_PENDING)
              then
                booking_update bid (set_booking_status B_CONFIRMED);;
                send_notifications w d1 id bid b
              else mret tt
          | None => mret tt
          end;;
          res_status 200;;
          res_send (Text "Webhook processed successfully")
      end
  end.

Definition handleWebhook (w : World) (req : WebhookRequest) : M unit :=
  try_catch
    (match present (chapa_signature req), present (CHAPA_WEBHOOK_SECRET w) with
     | Some signature, Some webhookSecret =>
         let hash := createHmac_sha256_hex w webhookSecret (payload req) in
         if negb (String.eqb hash signature) then
           res_status 401;; res_send (Text "Unauthorized")
         else webhook_reconcile w req
     | _, _ => res_status 401;; res_send (Text "Unauthorized")
     end)
    (res_status 500;; res_send (Text "Webhook processing failed")).

(** ** Running a handler on a request *)

(** A fresh response object: status 200, nothing sent, no outbound call. *)
Definition fresh (d : DB) : St := mkSt d 200 None [].

Definition run (h : M unit) (d : DB) : Res unit * St := h (fresh d).

(** The notifier calls a run made, in order. *)
Definition notifications (s : St) : list Notification :=
  omap (fun o => match o with Notify n => Some n | _ => None end) (outbound s).

(** ** Summaries used in the statements below *)

(** The notifier calls [send_notifications] makes. *)
Definition notified (w : World) (d : DB) (payment_id booking_id : string)
    (b : Booking) : list Notification :=
  match include_service d b with
  | None => []
  | Some service =>
      let vendor := fst <$> include_vendor d service in
      let first := sendPaymentCompletionToVendor payment_id booking_id vendor in
      if notifier w first
      then [first; sendNewBookingToVendor booking_id vendor]
      else [first]
  end.

(** The database after a reconciliation that obtained the status [st] for
    the payment row [p] stored under [id]. *)
Definition reconciled (d : DB) (id : string) (p : Payment) (st : PaymentStatus)
    (t : Z) : DB :=
  let d1 := with_payments d (<[id := set_status_updatedAt st t p]> (payments d)) in
  match include_booking d p with
  | Some (bid, b) =>
      if bool_decide (st = COMPLETED) && bool_decide (b_status b = B_PENDING)
      then with_bookings d1 (<[bid := set_booking_status B_CONFIRMED b]> (bookings d))
      else d1
  | None => d1
  end.

(** The notifier calls of a poll that obtained the status [st]. *)
Definition reconcile_notified (w : World) (d : DB) (id : string) (p : Payment)
    (st : PaymentStatus) : list Notification :=
  match include_booking d p with
  | Some (bid, b) =>
      if bool_decide (st = COMPLETED) then notified w d id bid b else []
  | None => []
  end.

(** The notifier calls of a webhook that carried the status [st]. *)
Definition webhook_notified (w : World) (d : DB) (id : string) (p : Payment)
    (st : PaymentStatus) : list Notification :=
  match include_booking d p with
  | Some (bid, b) =>
      if bool_decide (st = COMPLETED) && bool_decide (b_status b = B_PENDING)
      then notified w d id bid b else []
  | None => []
  end.

(** Two states that agree on everything but the log of outbound calls. *)
Definition agree (s1 s2 : St) : Prop :=
  db s1 = db s2 /\ statusCode s1 = statusCode s2 /\ sent s1 = sent s2.

(** Two computations that, from states that agree, end with the same result
    in states that agree. *)
Definition simM {A} (m1 m2 : M A) : Prop :=
  forall s1 s2, agree s1 s2 ->
    fst (m1 s1) = fst (m2 s2) /\ agree (snd (m1 s1)) (snd (m2 s2)).

(** The same world with another mailer. *)
Definition with_notifier (w : World) (f : Notification -> bool) : World :=
  mkWorld (now w) (generated_id w) (uuid w) (CHAPA_WEBHOOK_SECRET w)
    (createHmac_sha256_hex w) (chapa_initialize w) (chapa_verify w) f.

(** A reconciliation call is a poll or a webhook delivery. *)
Inductive ReconciliationCall :=
  | Poll (req : VerifyRequest)
  | Webhook (req : WebhookRequest).

Definition reconcile (w : World) (c : ReconciliationCall) : M unit :=
  match c with
  | Poll req => verifyPayment w req
  | Webhook req => handleWebhook w req
  end.

(** All the checks of lines 13-60 pass, with the values they bind. *)
Definition checks_pass (d : DB) (req : InitiateRequest) (amt : float)
    (vendor_id booking_id user_id : string) (client : Client) (vendor : Vendor)
    (vendor_subaccount : string) (adminAccount : ChapaSubaccount) : Prop :=
  present_number (i_amount req) = Some amt /\
  present (i_vendorId req) = Some vendor_id /\
  present (i_bookingId req) = Some booking_id /\
  present (i_userId req) = Some user_id /\
  clients d !! user_id = Some client /\
  (exists booking service,
     bookings d !! booking_id = Some booking /\
     b_clientId booking = c_id client /\
     services d !! b_serviceId booking = Some service /\
     s_vendorId service = vendor_id) /\
  vendors d !! vendor_id = Some vendor /\
  present (chapaSubaccountId vendor) = Some vendor_subaccount /\
  chapaSubaccount_findFirst_admin d = Some adminAccount.

(** The call is rejected with this status and this message, the database
    is as before and nothing was sent to the gateway or to the mailer. *)
Definition rejected (w : World) (req : InitiateRequest) (d : DB) (code : Z)
    (message : string) : Prop :=
  run (initiatePayment w req) d = (Throw (Error message), mkSt d code None []).

(** What happened to the booking [bid] between [d] and [d']: nothing, or
    it went from PENDING to CONFIRMED while a payment that points to it is
    COMPLETED in [d']. *)
Definition booking_effect (d d' : DB) (bid : string) : Prop :=
  bookings d' !! bid = bookings d !! bid \/
  exists b id p,
    bookings d !! bid = Some b /\ b_status b = B_PENDING /\
    bookings d' !! bid = Some (set_booking_status B_CONFIRMED b) /\
    payments d' !! id = Some p /\ bookingId p = Some bid /\ status p = COMPLETED.

(** ** A concrete marketplace for the examples *)

Module Scenario.

(** A stand-in for the keyed hash: the examples only need a function. *)
Definition toy_hmac (key message : string) : string := key ++ ":" ++ message.

Definition p1 : Payment :=
  mkPayment 100 PENDING "CHAPA" (Some "payment-p1-u0") (Some "b1") "u1" "uv1"
    (Some "c1") (Some "v1") (Some 10%float) (Some 90%float) 1 1.

Definition b1 : Booking := mkBooking "c1" "s1" 0 "Addis Ababa" B_PENDING.

Definition market : DB := mkDB
  {[ "u1" := mkClient "c1" ]}
  {[ "b1" := b1 ]}
  {[ "s1" := mkService "Photography" "v1" ]}
  {[ "v1" := mkVendor "uv1" "Lens and Light" (Some "sub-v1") ]}
  [ mkChapaSubaccount "sub-admin" "ADMIN" ]
  {[ "p1" := p1 ]}.

(** The same marketplace after [p1] was completed and [b1] confirmed. *)
Definition market_paid : DB :=
  with_bookings
    (with_payments market {[ "p1" := set_status_updatedAt COMPLETED 2 p1 ]})
    {[ "b1" := set_booking_status B_CONFIRMED b1 ]}.

(** The vendor has not registered a payout subaccount. *)
Definition market_no_subaccount : DB :=
  mkDB (clients market) (bookings market) (services market)
    {[ "v1" := mkVendor "uv1" "Lens and Light" None ]}
    (chapaSubaccounts market) (payments market).

(** The gateway knows three transactions: the one of [p1], still pending,
    an unrelated one that succeeded, and one that was declined. *)
Definition gateway (tx_ref : string) : option VerifyResponse :=
  if String.eqb tx_ref "payment-p1-u0" then Some (mkVerifyResponse (Some "pending") None)
  else if String.eqb tx_ref "payment-p9-u9" then Some (mkVerifyResponse (Some "success") None)
  else if String.eqb tx_ref "payment-declined" then Some (mkVerifyResponse (Some "failed") None)
  else None.

Definition world : World :=
  mkWorld 5 "p2" "u2" (Some "whsec") toy_hmac
    (fun _ => Some (Some (Some "https://checkout.example/p2")))
    gateway (fun _ => true).

(** The gateway reports success for the transaction of [p1]. *)
Definition world_paid : World :=
  mkWorld 5 "p2" "u2" (Some "whsec") toy_hmac
    (fun _ => Some (Some (Some "https://checkout.example/p2")))
    (fun _ => Some (mkVerifyResponse (Some "success") None)) (fun _ => true).

(** The gateway rejects the checkout request. *)
Definition world_gateway_down : World :=
  mkWorld 5 "p2" "u2" (Some "whsec") toy_hmac (fun _ => None) gateway (fun _ => true).

Definition signed (body : string) (tx_ref gw_status : option string) : WebhookRequest :=
  mkWebhookRequest (Some (toy_hmac "whsec" body)) body tx_ref gw_status.

End Scenario.

(** ** getPayments (lines 459-555) *)

(** The handler only reads: it is a function of the database.

    A JavaScript number, as far as this handler needs it: [Num z] is the
    number whose value is the integer [z]; [Null] is [NaN] or an infinity,
    which JSON prints as [null]; [Untracked] is any number this
    development does not follow. *)
Inductive JsNumber :=
  | Num (z : Z)
  | Null
  | Untracked.

Record ListRequest := mkListRequest {
  l_user : string;
  l_page : option string;
  l_limit : option string;
  l_status : option string
}.

(** What the handler takes from the JavaScript runtime and from the ORM
    without this development looking inside: [parseInt s] is
    [parseInt(s, 10)], and [findMany_irregular page limit rows] is what
    [findMany] answers, out of the ordered matching rows, when the [skip]
    and [take] that come of the query parameters [page] and [limit] are
    not as [regular_page] describes ([None] when the ORM rejects the
    query). *)
Record Runtime := mkRuntime {
  parseInt : string -> JsNumber;
  findMany_irregular :
    option string -> option string -> list (string * Payment) ->
    option (list (string * Payment))
}.

(** [const { page = 1, limit = 10, status } = req.query] followed by the
    two [parseInt] calls (lines 461-465); [parseInt] of the default numbers
    1 and 10 is 1 and 10. *)
Definition pageNum (rt : Runtime) (req : ListRequest) : JsNumber :=
  match l_page req with
  | None => Num 1
  | Some s => parseInt rt s
  end.

Definition limitNum (rt : Runtime) (req : ListRequest) : JsNumber :=
  match l_limit req with
  | None => Num 10
  | Some s => parseInt rt s
  end.

(** Lines 470-476: the status joins the filter only when it is one of the
    four names of the enumeration. *)
Definition status_filter (req : ListRequest) : option PaymentStatus :=
  match present (l_status req) with
  | Some s =>
      if String.eqb s "PENDING" then Some PENDING
      else if String.eqb s "COMPLETED" then Some COMPLETED
      else if String.eqb s "FAILED" then Some FAILED
      else if String.eqb s "REFUNDED" then Some REFUNDED
      else None
  | None => None
  end.

(** The [where] object: [{ userId }], with [status] when it was accepted. *)
Definition where_matches (uid : string) (f : option PaymentStatus) (p : Payment)
  : bool :=
  String.eqb (userId p) uid &&
  match f with
  | None => true
  | Some st => bool_decide (status p = st)
  end.

Definition payment_where (d : DB) (uid : string) (f : option PaymentStatus)
  : list (string * Payment) :=
  List.filter (fun kp => where_matches uid f (snd kp)) (map_to_list (payments d)).

(** [orderBy: { createdAt: "desc" }]: rows with the same [createdAt] keep
    the order of the table. *)
Fixpoint insert_createdAt_desc (x : string * Payment) (l : list (string * Payment))
  : list (string * Payment) :=
  match l with
  | [] => [x]
  | y :: r =>
      if createdAt (snd y) <=? createdAt (snd x) then x :: y :: r
      else y :: insert_createdAt_desc x r
  end.

Definition orderBy_createdAt_desc (l : list (string * Payment))
  : list (string * Payment) :=
  foldr insert_createdAt_desc [] l.

Definition max_int32 : Z := 2147483647.

(** [skip: (pageNum - 1) * limitNum] and [take: limitNum] when the page is
    an integer of at least 1 and the limit and the product are integers
    from 0 to [max_int32]: there the product is computed without rounding
    and [findMany] skips and takes that many rows. *)
Definition regular_page (page limit : JsNumber) : option (Z * Z) :=
  match page, limit with
  | Num p, Num l =>
      if (1 <=? p) && (0 <=? l) && (l <=? max_int32) && ((p - 1) * l <=? max_int32)
      then Some ((p - 1) * l, l)
      else None
  | _, _ => None
  end.

(** [prisma.payment.findMany({ where, orderBy, skip, take })] *)
Definition payment_findMany (rt : Runtime) (d : DB) (req : ListRequest)
    (f : option PaymentStatus) : option (list (string * Payment)) :=
  let rows := orderBy_createdAt_desc (payment_where d (l_user req) f) in
  match regular_page (pageNum rt req) (limitNum rt req) with
  | Some (s, t) => Some (firstn (Z.to_nat t) (skipn (Z.to_nat s) rows))
  | None => findMany_irregular rt (l_page req) (l_limit req) rows
  end.

(** [prisma.payment.count({ where })] *)
Definition payment_count (d : DB) (uid : string) (f : option PaymentStatus) : Z :=
  Z.of_nat (length (payment_where d uid f)).

Record BookingItem := mkBookingItem {
  bi_id : string;
  bi_eventDate : Z;
  bi_location : string;
  bi_status : BookingStatus;
  bi_service_name : string;
  bi_vendor_businessName : string;
  bi_vendor_id : string
}.

Record PaymentItem := mkPaymentItem {
  it_id : string;
  it_amount : float;
  it_status : PaymentStatus;
  it_method : string;
  it_transactionId : option string;
  it_createdAt : Z;
  it_updatedAt : Z;
  it_booking : option BookingItem
}.

Record Pagination := mkPagination {
  pg_total : Z;
  pg_page : JsNumber;
  pg_limit : JsNumber;
  pg_pages : JsNumber
}.

(** What the handler ends with: the JSON it sent, or the status it had set
    and the error it threw. *)
Inductive ListResult :=
  | Listed (code : Z) (items : list PaymentItem) (pagination : Pagination)
  | ListFailed (code : Z) (e : JsError).

(** Lines 520-544, one element of [payments.map].  The service price,
    which the rows of this development do not carry, is left out. *)
Definition format_payment (d : DB) (kp : string * Payment) : option PaymentItem :=
  let p := snd kp in
  match include_booking d p with
  | None =>
      Some (mkPaymentItem (fst kp) (amount p) (status p) (method p)
              (transactionId p) (createdAt p) (updatedAt p) None)
  | Some (bid, b) =>
      match include_service d b with
      | None => None
      | Some service =>
          match include_vendor d service with
          | None => None
          | Some (vid, vendor) =>
              Some (mkPaymentItem (fst kp) (amount p) (status p) (method p)
                      (transactionId p) (createdAt p) (updatedAt p)
                      (Some (mkBookingItem bid (b_eventDate b) (b_location b)
                               (b_status b) (s_name service)
                               (v_businessName vendor) vid)))
          end
      end
  end.

(** [payments.map(format)]: the first row whose relations are missing
    throws a [TypeError]. *)
Fixpoint format_payments (d : DB) (l : list (string * Payment))
  : option (list PaymentItem) :=
  match l with
  | [] => Some []
  | kp :: r =>
      match format_payment d kp with
      | None => None
      | Some it =>
          match format_payments d r with
          | None => None
          | Some its => Some (it :: its)
          end
      end
  end.

(** [Math.ceil(totalPayments / limitNum)]: [NaN] or an infinity for a
    limit of zero; for any other integer limit and a total below 2^53 the
    quotient is rounded to no integer it is not, so the result is the
    exact ceiling. *)
Definition pages_of (total : Z) (limit : JsNumber) : JsNumber :=
  match limit with
  | Num l =>
      if l =? 0 then Null
      else if total <? 2 ^ 53 then Num (- ((- total) / l))
      else Untracked
  | _ => Untracked
  end.

Definition getPayments (rt : Runtime) (req : ListRequest) (d : DB) : ListResult :=
  let f := status_filter req in
  match clients d !! l_user req with
  | None => ListFailed 400 (Error "Client profile not found")
  | Some _ =>
      match payment_findMany rt d req f with
      | None => ListFailed 200 PrismaError
      | Some rows =>
          let total := payment_count d (l_user req) f in
          match format_payments d rows with
          | None => ListFailed 200 TypeError
          | Some items =>
              Listed 200 items
                (mkPagination total (pageNum rt req) (limitNum rt req)
                   (pages_of total (limitNum rt req)))
          end
      end
  end.

(** ** utils/emailService.js *)

(** The error object of a rejected transport call. *)
Record MailFailure := mkMailFailure {
  mf_message : string;
  mf_name : string;
  mf_code : option string;
  mf_command : option string
}.

(** The options given to [sendMail], without the HTML body. *)
Record MailOptions := mkMailOptions {
  mo_from : string;
  mo_to : string;
  mo_subject : string
}.

(** The mail transport and the environment: [process.env], whether
    [createTransporter] throws, what [verify] resolves to or rejects with,
    and what [sendMail] resolves to (a message id) or rejects with. *)
Record Mailer := mkMailer {
  env : gmap string string;
  createTransport : option MailFailure;
  transport_verify : MailFailure + bool;
  transport_sendMail : MailOptions -> MailFailure + string
}.

Inductive TransportCall :=
  | VerifyCall
  | SendMailCall (o : MailOptions).

(** [process.env[name]] when it is set and not empty. *)
Definition getenv (m : Mailer) (name : string) : option string :=
  present (env m !! name).

Definition dquote : string := String (ascii_of_N 34) EmptyString.

(** [process.env.EMAIL_FROM || '"Wedding Planner" <noreply@weddingplanner.com>'] *)
Definition sendEmail_from (m : Mailer) : string :=
  match getenv m "EMAIL_FROM" with
  | Some f => f
  | None => dquote ++ "Wedding Planner" ++ dquote ++ " <noreply@weddingplanner.com>"
  end.

(** [sendEmail] (lines 40-77): a promise that resolves to the transport's
    answer or rejects with the error the transport threw, and the calls
    made on the transport. *)
Definition sendEmail (m : Mailer) (to subject : string)
  : (MailFailure + string) * list TransportCall :=
  match createTransport m with
  | Some e => (inl e, [])
  | None =>
      let o := mkMailOptions (sendEmail_from m) to subject in
      (transport_sendMail m o, [SendMailCall o])
  end.

(** [sendTestEmail] (lines 118-134); the validation error is an [Error]
    with a message only. *)
Definition sendTestEmail (m : Mailer) (to : option string)
  : (MailFailure + string) * list TransportCall :=
  match present to with
  | None => (inl (mkMailFailure "Recipient email is required" "Error" None None), [])
  | Some addr => sendEmail m addr "Test Email from Wedding Planner"
  end.

Inductive TestDetails :=
  | NoDetails
  | VerifyResult (b : bool)
  | TransportError (name : string) (code command : option string)
  | OtherError (name : string) (code : option string)
  | SentDetails (messageId recipient : string).

Record TestResult := mkTestResult {
  success : bool;
  stage : string;
  message : string;
  details : TestDetails
}.

(** [missingVars.join(', ')] *)
Fixpoint join_comma (l : list string) : string :=
  match l with
  | [] => EmptyString
  | [x] => x
  | x :: r => x ++ ", " ++ join_comma r
  end.

(** [requiredVars.filter(varName => !process.env[varName])] *)
Definition missingVars (m : Mailer) : list string :=
  List.filter (fun name => negb (bool_decide (is_Some (getenv m name))))
    ["EMAIL_USER"; "EMAIL_PASSWORD"].

(** [process.env.EMAIL_FROM || `"Wedding Planner" <${process.env.EMAIL_USER}>`] *)
Definition test_from (m : Mailer) : string :=
  match getenv m "EMAIL_FROM" with
  | Some f => f
  | None =>
      dquote ++ "Wedding Planner" ++ dquote ++ " <" ++
      default "undefined" (env m !! "EMAIL_USER") ++ ">"
  end.

(** [testEmailConfiguration] (lines 317-440) *)
Definition testEmailConfiguration (m : Mailer) (testEmail : option string)
  : TestResult * list TransportCall :=
  match present testEmail with
  | None => (mkTestResult false "validation" "No test email provided" NoDetails, [])
  | Some addr =>
      match missingVars m with
      | _ :: _ =>
          (mkTestResult false "configuration"
             ("Missing required environment variables: " ++ join_comma (missingVars m))
             NoDetails, [])
      | [] =>
          match createTransport m with
          | Some e =>
              (mkTestResult false "error" ("Email test failed: " ++ mf_message e)
                 (OtherError (mf_name e) (mf_code e)), [])
          | None =>
              match transport_verify m with
              | inl e =>
                  (mkTestResult false "connection"
                     ("Connection verification failed: " ++ mf_message e)
                     (TransportError (mf_name e) (mf_code e) (mf_command e)),
                   [VerifyCall])
              | inr false =>
                  (mkTestResult false "connection"
                     "Failed to verify email transport connection"
                     (VerifyResult false), [VerifyCall])
              | inr true =>
                  let o := mkMailOptions (test_from m) addr
                             "Wedding Planner - Email Configuration Test" in
                  match transport_sendMail m o with
                  | inl e =>
                      (mkTestResult false "sending"
                         ("Failed to send test email: " ++ mf_message e)
                         (TransportError (mf_name e) (mf_code e) (mf_command e)),
                       [VerifyCall; SendMailCall o])
                  | inr messageId =>
                      (mkTestResult true "completed"
                         "Email configuration test completed successfully"
                         (SentDetails messageId addr),
                       [VerifyCall; SendMailCall o])
                  end
              end
          end
      end
  end.

(** The booking part of a poll's JSON answer agrees with the database [d]
    it was read from: absent when the payment has no booking, and otherwise
    the key, the status and the event date of the booking the payment
    points to. *)
Definition response_booking (d : DB) (up : Payment)
    (bk : option (string * BookingStatus * Z * string * string)) : Prop :=
  match bk with
  | None => include_booking d up = None
  | Some (bid, bst, ev, _, _) =>
      exists b, include_booking d up = Some (bid, b) /\
                bst = b_status b /\ ev = b_eventDate b
  end.

(** The order of the listing: the first row is not older than the second. *)
Definition newer_first (x y : string * Payment) : Prop :=
  createdAt (snd y) <= createdAt (snd x).

(** The rows a regular page holds: [limit] rows after the first
    [(page - 1) * limit] of the caller's matching payments, newest first. *)
Definition page_rows (d : DB) (uid : string) (f : option PaymentStatus)
    (page limit : Z) : list (string * Payment) :=
  firstn (Z.to_nat limit)
    (skipn (Z.to_nat ((page - 1) * limit))
       (orderBy_createdAt_desc (payment_where d uid f))).

(** The request asks for the regular page [page] with the limit [limit]. *)
Definition regular (rt : Runtime) (req : ListRequest) (page limit : Z) : Prop :=
  pageNum rt req = Num page /\ limitNum rt req = Num limit /\
  1 <= page /\ 0 <= limit <= max_int32 /\ (page - 1) * limit <= max_int32.

(** The keys of the payments a listing answered, in order. *)
Definition listed_ids (r : ListResult) : list string :=
  match r with
  | Listed _ items _ => map it_id items
  | ListFailed _ _ => []
  end.

(** The same request without its [status] parameter. *)
Definition without_status (req : ListRequest) : ListRequest :=
  mkListRequest (l_user req) (l_page req) (l_limit req) None.

(** An item of the listing shows the row [p] stored under the key [id]. *)
Definition shows (it : PaymentItem) (id : string) (p : Payment) : Prop :=
  it_id it = id /\ it_amount it = amount p /\ it_status it = status p /\
  it_method it = method p /\ it_transactionId it = transactionId p /\
  it_createdAt it = createdAt p /\ it_updatedAt it = updatedAt p.

(** The order of the listing when no two rows share a [createdAt]. *)
Definition strictly_newer_first (x y : string * Payment) : Prop :=
  createdAt (snd y) < createdAt (snd x).

(** ** A ledger for the examples of the listing *)

Module Ledger.

Definition pay (uid : string) (st : PaymentStatus) (t : Z) : Payment :=
  mkPayment 100 st "CHAPA" None None uid "uv1" None None None None t t.

Definition ledger : DB := mkDB
  {[ "u1" := mkClient "c1" ]}
  ∅ ∅ ∅ []
  (<["a1" := pay "u1" COMPLETED 10]>
   (<["a2" := pay "u1" PENDING 20]>
    (<["a3" := pay "u1" COMPLETED 30]>
     (<["a4" := pay "u1" FAILED 40]>
      (<["a5" := pay "u1" COMPLETED 50]>
       (<["z1" := pay "u2" COMPLETED 60]> ∅)))))).

(** A stand-in for [parseInt(s, 10)]: right on the strings the examples
    use, and not followed on any other. *)
Definition parse (s : string) : JsNumber :=
  if String.eqb s "0" then Num 0
  else if String.eqb s "1" then Num 1
  else if String.eqb s "2" then Num 2
  else if String.eqb s "3" then Num 3
  else if String.eqb s "4" then Num 4
  else if String.eqb s "10" then Num 10
  else Untracked.

(** A runtime whose ORM rejects every irregular [skip] or [take]. *)
Definition strict : Runtime := mkRuntime parse (fun _ _ _ => None).

Definition page_of (page limit : string) (st : option string) : ListRequest :=
  mkListRequest "u1" (Some page) (Some limit) st.

End Ledger.

(** ** A mail setup for the examples *)

Module Mailbox.

Definition refused : MailFailure :=
  mkMailFailure "Invalid login" "Error" (Some "EAUTH") (Some "AUTH PLAIN").

(** Both credentials are set, the server accepts the login and the mail. *)
Definition working : Mailer :=
  mkMailer {[ "EMAIL_USER" := "planner@example.com"; "EMAIL_PASSWORD" := "secret" ]}
    None (inr true) (fun _ => inr "<message-1>").

(** The password is not set. *)
Definition no_password : Mailer :=
  mkMailer {[ "EMAIL_USER" := "planner@example.com" ]}
    None (inr true) (fun _ => inr "<message-1>").

(** The server refuses the login. *)
Definition bad_login : Mailer :=
  mkMailer {[ "EMAIL_USER" := "planner@example.com"; "EMAIL_PASSWORD" := "wrong" ]}
    None (inl refused) (fun _ => inr "<message-1>").

End Mailbox.

(** ** Spelling a word in any mix of cases *)

(** The capital of a lower-case letter: the character 32 codes below. *)
Definition upper_of (t : ascii) : ascii := ascii_of_N (N_of_ascii t - 32).

(** [c] is the letter [t] or its capital. *)
Definition same_letter (c t : ascii) : Prop := c = t \/ c = upper_of t.

(** [spelled s w]: the string [s] is the lower-case word [w], letter by
    letter, each letter in either case. *)
Fixpoint spelled (s w : string) : Prop :=
  match s, w with
  | EmptyString, EmptyString => True
  | String c r, String t v => same_letter c t /\ spelled r v
  | _, _ => False
  end.

(** The word is made of the letters a to z only. *)
Fixpoint lower_word (w : string) : Prop :=
  match w with
  | EmptyString => True
  | String t v => (97 <= N_of_ascii t <= 122)%N /\ lower_word v
  end.


(** * Properties *)

Arguments initiate_checkout : simpl never.
Arguments new_payment : simpl never.
Arguments new_tx_ref : simpl never.
Arguments initialize_request : simpl never.
Arguments send_notifications : simpl never.
Arguments verify_response : simpl never.
Arguments include_booking : simpl never.
Arguments verifyPayment_paymentStatus : simpl never.
Arguments handleWebhook_paymentStatus : simpl never.
Arguments present : simpl never.

(** ** Running the blocks of the handlers *)

Ltac unfold_M :=
  unfold notify, payment_update, payment_create, booking_update, deref,
    get_db, set_db, res_status, res_send, call_out, try_catch, throw,
    mbind, M_bind, mret, M_ret in *.

Lemma send_notifications_run w d pid bid b s :
  send_notifications w d pid bid b s =
  (Ok tt, mkSt (db s) (statusCode s) (sent s)
            (outbound s ++ map Notify (notified w d pid bid b))).
Proof.
  unfold send_notifications, notified. unfold_M.
  destruct s as [d0 c0 b0 o0]; simpl.
  destruct (include_service d b) as [sv|]; simpl.
  - destruct (notifier w _); simpl.
    + destruct (notifier w _); simpl; by rewrite <- app_assoc.
    + done.
  - by rewrite app_nil_r.
Qed.

Lemma verify_response_run d id ps up data s :
  exists r body,
    verify_response d id ps up data s = (r, mkSt (db s) 200 body (outbound s)).
Proof.
  unfold verify_response. unfold_M. destruct s as [d0 c0 b0 o0]; simpl.
  destruct (include_booking d up) as [[bid b]|]; simpl; [|eauto].
  destruct (include_service d b); simpl; [|eauto].
  destruct (include_vendor d s); simpl; eauto.
Qed.


Lemma include_booking_Some d p bid b :
  include_booking d p = Some (bid, b) <->
  bookingId p = Some bid /\ bookings d !! bid = Some b.
Proof.
  unfold include_booking. split.
  - destruct (bookingId p) as [x|]; [|done].
    destruct (bookings d !! x) eqn:E; [|done]. intros [= <- <-]. done.
  - intros [-> ->]. done.
Qed.

Lemma notified_ext w d d' pid bid b b' :
  services d' = services d -> vendors d' = vendors d ->
  b_serviceId b' = b_serviceId b ->
  notified w d' pid bid b' = notified w d pid bid b.
Proof.
  intros Hs Hv Hb. unfold notified, include_service, include_vendor.
  by rewrite Hs, Hv, Hb.
Qed.

Lemma verify_reconcile_run w d id tx p r gs s :
  db s = d ->
  payments d !! id = Some p ->
  chapa_verify w tx = Some r ->
  vr_status r = Some gs ->
  exists res body,
    verify_reconcile w id tx (include_booking d p) s =
    (res, mkSt (reconciled d id p (verifyPayment_paymentStatus gs) (now w)) 200 body
            (outbound s ++ ChapaVerify tx ::
               map Notify (reconcile_notified w d id p (verifyPayment_paymentStatus gs)))).
Proof.
  intros <- Hp Hr Hgs.
  unfold verify_reconcile, reconciled, reconcile_notified. unfold_M.
  destruct s as [d c0 b0 o0]; simpl in *. rewrite Hr. simpl. rewrite Hgs. simpl. rewrite Hp. simpl.
  set (st := verifyPayment_paymentStatus gs).
  set (p' := set_status_updatedAt st (now w) p).
  destruct (include_booking d p) as [[bid b]|] eqn:Hb.
  - apply include_booking_Some in Hb as Hb'. destruct Hb' as [Hbid Hbk].
    destruct (bool_decide (st = COMPLETED)) eqn:Hst; simpl.
    + destruct (bool_decide (b_status b = B_PENDING)) eqn:Hpend; simpl.
      * rewrite Hbk. simpl. rewrite lookup_insert_eq. simpl.
        assert (Hi : include_booking
                  (with_bookings (with_payments d (<[id:=p']> (payments d)))
                     (<[bid:=set_booking_status B_CONFIRMED b]> (bookings d))) p'
                = Some (bid, set_booking_status B_CONFIRMED b)).
        { apply include_booking_Some. simpl. by rewrite lookup_insert_eq. }
        rewrite Hi. rewrite send_notifications_run. simpl.
        edestruct verify_response_run as (res & body & ->). simpl.
        exists res, body. rewrite <- app_assoc. simpl.
        by rewrite (notified_ext w d _ id bid b _).
      * rewrite lookup_insert_eq. simpl.
        assert (Hi : include_booking (with_payments d (<[id:=p']> (payments d))) p'
                = Some (bid, b)).
        { apply include_booking_Some. done. }
        rewrite Hi. rewrite send_notifications_run. simpl.
        edestruct verify_response_run as (res & body & ->). simpl.
        exists res, body. rewrite <- app_assoc. simpl.
        by rewrite (notified_ext w d _ id bid b _).
    + rewrite lookup_insert_eq. simpl.
      assert (Hi : include_booking (with_payments d (<[id:=p']> (payments d))) p'
                = Some (bid, b)).
      { apply include_booking_Some. done. }
      rewrite Hi.
      edestruct verify_response_run as (res & body & ->). simpl.
      exists res, body. rewrite <- ?app_assoc; done.
  - simpl. rewrite lookup_insert_eq. simpl.
    assert (Hi : include_booking (with_payments d (<[id:=p']> (payments d))) p' = None).
    { unfold include_booking in *. simpl.
      destruct (bookingId p); [|done]. destruct (bookings d !! s); done. }
    rewrite Hi.
    edestruct verify_response_run as (res & body & ->). simpl.
    exists res, body. rewrite <- ?app_assoc; done.
Qed.

Lemma payment_findFirst_Some d tx id p :
  payment_findFirst_by_transactionId d tx = Some (id, p) ->
  payments d !! id = Some p /\ transactionId p = Some tx.
Proof.
  unfold payment_findFirst_by_transactionId. intros H.
  apply find_some in H as [Hin Hb]. simpl in Hb.
  apply bool_decide_eq_true in Hb. split; [|done].
  apply elem_of_map_to_list. by apply list_elem_of_In.
Qed.

Lemma webhook_reconcile_run w req d tx id p gs s :
  db s = d ->
  present (wh_tx_ref req) = Some tx ->
  payment_findFirst_by_transactionId d tx = Some (id, p) ->
  wh_status req = Some gs ->
  webhook_reconcile w req s =
  (Ok tt, mkSt (reconciled d id p (handleWebhook_paymentStatus gs) (now w)) 200
            (Some (Text "Webhook processed successfully"))
            (outbound s ++
               map Notify (webhook_notified w d id p (handleWebhook_paymentStatus gs)))).
Proof.
  intros <- Htx Hf Hgs. apply payment_findFirst_Some in Hf as Hf'.
  destruct Hf' as [Hp _].
  unfold webhook_reconcile, reconciled, webhook_notified. unfold_M.
  destruct s as [d c0 b0 o0]; simpl in *. rewrite Htx. simpl. rewrite Hf, Hgs. simpl.
  rewrite Hp. simpl.
  set (st := handleWebhook_paymentStatus gs).
  set (p' := set_status_updatedAt st (now w) p).
  destruct (include_booking d p) as [[bid b]|] eqn:Hb.
  - apply include_booking_Some in Hb as Hb'. destruct Hb' as [Hbid Hbk].
    assert (Hi : include_booking (with_payments d (<[id:=p']> (payments d))) p'
                = Some (bid, b)) by by apply include_booking_Some.
    rewrite Hi.
    destruct (bool_decide (st = COMPLETED) && bool_decide (b_status b = B_PENDING));
      simpl.
    + rewrite Hbk. simpl. rewrite send_notifications_run. simpl.
      by rewrite (notified_ext w d _ id bid b b).
    + by rewrite app_nil_r.
  - assert (Hi : include_booking (with_payments d (<[id:=p']> (payments d))) p' = None).
    { unfold include_booking in *. simpl.
      destruct (bookingId p) as [x|]; [|done]. destruct (bookings d !! x); done. }
    rewrite Hi. simpl. by rewrite app_nil_r.
Qed.

Lemma verifyPayment_run w req d id tx p r gs :
  present (v_paymentId req) = Some id ->
  present (v_tx_ref req) = Some tx ->
  payments d !! id = Some p ->
  userId p = v_user req ->
  chapa_verify w tx = Some r ->
  vr_status r = Some gs ->
  exists res code body,
    run (verifyPayment w req) d =
    (res, mkSt (reconciled d id p (verifyPayment_paymentStatus gs) (now w)) code body
            (ChapaVerify tx ::
               map Notify (reconcile_notified w d id p (verifyPayment_paymentStatus gs)))).
Proof.
  intros Hid Htx Hp Hu Hr Hgs. unfold run, verifyPayment.
  rewrite Hid, Htx. unfold_M. simpl. rewrite Hp, Hu, String.eqb_refl. simpl.
  edestruct (verify_reconcile_run w d id tx p r gs (fresh d)) as (res & body & ->);
    [done..|].
  destruct res; simpl; eauto.
Qed.

Lemma handleWebhook_run w req d signature secret tx id p gs :
  present (chapa_signature req) = Some signature ->
  present (CHAPA_WEBHOOK_SECRET w) = Some secret ->
  createHmac_sha256_hex w secret (payload req) = signature ->
  present (wh_tx_ref req) = Some tx ->
  payment_findFirst_by_transactionId d tx = Some (id, p) ->
  wh_status req = Some gs ->
  run (handleWebhook w req) d =
  (Ok tt, mkSt (reconciled d id p (handleWebhook_paymentStatus gs) (now w)) 200
            (Some (Text "Webhook processed successfully"))
            (map Notify (webhook_notified w d id p (handleWebhook_paymentStatus gs)))).
Proof.
  intros Hsig Hsec Hh Htx Hf Hgs. unfold run, handleWebhook.
  rewrite Hsig, Hsec, Hh, String.eqb_refl. unfold try_catch. simpl.
  by rewrite (webhook_reconcile_run w req d tx id p gs (fresh d)).
Qed.

Lemma verifyPayment_db w req d :
  db (snd (run (verifyPayment w req) d)) = d \/
  exists id tx p r gs,
    present (v_paymentId req) = Some id /\ present (v_tx_ref req) = Some tx /\
    payments d !! id = Some p /\ userId p = v_user req /\
    chapa_verify w tx = Some r /\ vr_status r = Some gs /\
    db (snd (run (verifyPayment w req) d)) =
      reconciled d id p (verifyPayment_paymentStatus gs) (now w).
Proof.
  destruct (present (v_paymentId req)) as [id|] eqn:Hid;
    [|left; unfold run, verifyPayment; by rewrite Hid].
  destruct (present (v_tx_ref req)) as [tx|] eqn:Htx;
    [|left; unfold run, verifyPayment; by rewrite Hid, Htx].
  destruct (payments d !! id) as [p|] eqn:Hp;
    [|left; unfold run, verifyPayment; rewrite Hid, Htx; unfold_M; simpl; by rewrite Hp].
  destruct (String.eqb_spec (userId p) (v_user req)) as [Hu|Hu];
    [|left; unfold run, verifyPayment; rewrite Hid, Htx; unfold_M; simpl; rewrite Hp;
      apply String.eqb_neq in Hu; by rewrite Hu].
  destruct (chapa_verify w tx) as [r|] eqn:Hr.
  - destruct (vr_status r) as [gs|] eqn:Hgs.
    + right. exists id, tx, p, r, gs. repeat (split; [done|]).
      destruct (verifyPayment_run w req d id tx p r gs) as (res & code & body & ->);
        done.
    + left. unfold run, verifyPayment. rewrite Hid, Htx. unfold_M. simpl.
      rewrite Hp, Hu, String.eqb_refl. simpl. unfold verify_reconcile. unfold_M.
      simpl. rewrite Hr. simpl. by rewrite Hgs.
  - left. unfold run, verifyPayment. rewrite Hid, Htx. unfold_M. simpl.
    rewrite Hp, Hu, String.eqb_refl. simpl. unfold verify_reconcile. unfold_M.
    simpl. by rewrite Hr.
Qed.

Lemma handleWebhook_db w req d :
  db (snd (run (handleWebhook w req) d)) = d \/
  exists signature secret tx id p gs,
    present (chapa_signature req) = Some signature /\
    present (CHAPA_WEBHOOK_SECRET w) = Some secret /\
    createHmac_sha256_hex w secret (payload req) = signature /\
    present (wh_tx_ref req) = Some tx /\
    payment_findFirst_by_transactionId d tx = Some (id, p) /\
    wh_status req = Some gs /\
    db (snd (run (handleWebhook w req) d)) =
      reconciled d id p (handleWebhook_paymentStatus gs) (now w).
Proof.
  destruct (present (chapa_signature req)) as [sg|] eqn:Hsig;
    [|left; unfold run, handleWebhook; by rewrite Hsig].
  destruct (present (CHAPA_WEBHOOK_SECRET w)) as [sec|] eqn:Hsec;
    [|left; unfold run, handleWebhook; by rewrite Hsig, Hsec].
  destruct (String.eqb_spec (createHmac_sha256_hex w sec (payload req)) sg) as [Hh|Hh];
    [|left; unfold run, handleWebhook; rewrite Hsig, Hsec;
      apply String.eqb_neq in Hh; by rewrite Hh].
  destruct (present (wh_tx_ref req)) as [tx|] eqn:Htx;
    [|left; unfold run, handleWebhook; rewrite Hsig, Hsec, Hh, String.eqb_refl;
      unfold webhook_reconcile; by rewrite Htx].
  destruct (payment_findFirst_by_transactionId d tx) as [[id p]|] eqn:Hf;
    [|left; unfold run, handleWebhook; rewrite Hsig, Hsec, Hh, String.eqb_refl;
      unfold webhook_reconcile; rewrite Htx; unfold_M; simpl; by rewrite Hf].
  destruct (wh_status req) as [gs|] eqn:Hgs.
  - right. exists sg, sec, tx, id, p, gs. repeat (split; [done|]).
    by rewrite (handleWebhook_run w req d sg sec tx id p gs).
  - left. unfold run, handleWebhook. rewrite Hsig, Hsec, Hh, String.eqb_refl.
    unfold webhook_reconcile. rewrite Htx. unfold_M. simpl. rewrite Hf. simpl.
    by rewrite Hgs.
Qed.

(** *** Runs that differ only in their outbound calls *)

Lemma sim_ret {A} (a : A) : simM (mret a) (mret a).
Proof. intros s1 s2 H. done. Qed.

Lemma sim_throw {A} e : simM (@throw A e) (throw e).
Proof. intros s1 s2 H. done. Qed.

Lemma sim_bind {A B} (m1 m2 : M A) (f1 f2 : A -> M B) :
  simM m1 m2 -> (forall a, simM (f1 a) (f2 a)) -> simM (m1 ≫= f1) (m2 ≫= f2).
Proof.
  intros Hm Hf s1 s2 H. unfold mbind, M_bind.
  destruct (Hm s1 s2 H) as [Hr Hs].
  destruct (m1 s1) as [[a1|e1] t1], (m2 s2) as [[a2|e2] t2]; simpl in *;
    try discriminate.
  - injection Hr as ->. by apply Hf.
  - by injection Hr as ->.
Qed.

Lemma sim_try {A} (b1 b2 h1 h2 : M A) :
  simM b1 b2 -> simM h1 h2 -> simM (try_catch b1 h1) (try_catch b2 h2).
Proof.
  intros Hb Hh s1 s2 H. unfold try_catch.
  destruct (Hb s1 s2 H) as [Hr Hs].
  destruct (b1 s1) as [[a1|e1] t1], (b2 s2) as [[a2|e2] t2]; simpl in *;
    try discriminate.
  - by injection Hr as ->.
  - by apply Hh.
Qed.

Lemma sim_get_db : simM get_db get_db.
Proof. intros s1 s2 (Hd & Hc & Hb). unfold get_db; simpl. by rewrite Hd. Qed.

Lemma sim_set_db d : simM (set_db d) (set_db d).
Proof. intros s1 s2 (Hd & Hc & Hb). unfold set_db, agree; simpl. done. Qed.

Lemma sim_res_status n : simM (res_status n) (res_status n).
Proof. intros s1 s2 (Hd & Hc & Hb). unfold res_status, agree; simpl. done. Qed.

Lemma sim_res_send b : simM (res_send b) (res_send b).
Proof. intros s1 s2 (Hd & Hc & Hb). unfold res_send, agree; simpl. done. Qed.

Lemma sim_call_out o1 o2 : simM (call_out o1) (call_out o2).
Proof. intros s1 s2 (Hd & Hc & Hb). unfold call_out, agree; simpl. done. Qed.

Lemma sim_deref {A} (x : option A) : simM (deref x) (deref x).
Proof. destruct x; [apply sim_ret | apply sim_throw]. Qed.

Lemma sim_send_notifications w1 w2 d pid bid b :
  simM (send_notifications w1 d pid bid b) (send_notifications w2 d pid bid b).
Proof.
  intros s1 s2 (Hd & Hc & Hb). rewrite !send_notifications_run. unfold agree; simpl.
  done.
Qed.

Ltac sim_step :=
  lazymatch goal with
  | |- simM (mbind _ _) (mbind _ _) => apply sim_bind; [|intros ?]
  | |- simM (try_catch _ _) (try_catch _ _) => apply sim_try
  | |- simM (mret _) (mret _) => apply sim_ret
  | |- simM (throw _) (throw _) => apply sim_throw
  | |- simM get_db get_db => apply sim_get_db
  | |- simM (set_db _) (set_db _) => apply sim_set_db
  | |- simM (res_status _) (res_status _) => apply sim_res_status
  | |- simM (res_send _) (res_send _) => apply sim_res_send
  | |- simM (call_out _) (call_out _) => apply sim_call_out
  | |- simM (deref _) (deref _) => apply sim_deref
  | |- simM (send_notifications _ _ _ _ _) (send_notifications _ _ _ _ _) =>
      apply sim_send_notifications
  | |- simM (match ?x with _ => _ end) (match ?x with _ => _ end) => destruct x
  end.

Ltac sim := repeat sim_step.

Lemma sim_payment_update id f : simM (payment_update id f) (payment_update id f).
Proof. unfold payment_update. sim. Qed.

Lemma sim_booking_update id f : simM (booking_update id f) (booking_update id f).
Proof. unfold booking_update. sim. Qed.

Lemma sim_verify_response d id ps up data :
  simM (verify_response d id ps up data) (verify_response d id ps up data).
Proof. unfold verify_response. sim. Qed.

Ltac sim_blocks :=
  repeat first
    [ sim_step
    | apply sim_payment_update
    | apply sim_booking_update
    | apply sim_verify_response ].


Lemma initiate_checkout_run w amt vid bid uid client vendor sub admin s :
  payments (db s) !! generated_id w = None ->
  let id := generated_id w in
  let row := new_payment w amt vid bid uid client vendor in
  let r := initialize_request w amt admin sub in
  let stored p := with_payments (db s) (<[id := p]> (payments (db s))) in
  initiate_checkout w amt vid bid uid client vendor sub admin s =
  match chapa_initialize w r with
  | None =>
      (Throw (Error "Payment initiation failed"),
       mkSt (stored (set_status FAILED row)) 500 (sent s)
         (outbound s ++ [ChapaInitialize r]))
  | Some None =>
      (Throw (Error "Payment initiation failed"),
       mkSt (stored (set_status FAILED (set_transactionId (new_tx_ref w) row))) 500
         (sent s) (outbound s ++ [ChapaInitialize r]))
  | Some (Some url) =>
      (Ok tt,
       mkSt (stored (set_transactionId (new_tx_ref w) row)) 200
         (Some (InitiateJson url id (new_tx_ref w)))
         (outbound s ++ [ChapaInitialize r]))
  end.
Proof.
  intros Hfresh. unfold initiate_checkout. unfold_M.
  destruct s as [d c0 b0 o0]; simpl in *. rewrite Hfresh. simpl.
  destruct (chapa_initialize w _) as [[url|]|]; simpl;
    rewrite ?lookup_insert_eq; simpl; rewrite ?lookup_insert_eq; simpl;
    rewrite ?insert_insert_eq; done.
Qed.

Lemma initiate_checkout_taken w amt vid bid uid client vendor sub admin s p :
  payments (db s) !! generated_id w = Some p ->
  initiate_checkout w amt vid bid uid client vendor sub admin s = (Throw PrismaError, s).
Proof.
  intros Htaken. unfold initiate_checkout. unfold_M. simpl. by rewrite Htaken.
Qed.



(** ** The reconciled database *)

Lemma reconciled_payment d id p st t :
  payments (reconciled d id p st t) !! id = Some (set_status_updatedAt st t p).
Proof.
  unfold reconciled.
  destruct (include_booking d p) as [[bid b]|]; simpl;
    [destruct (_ && _); simpl|]; apply lookup_insert_eq.
Qed.

Lemma reconciled_other_payment d id p st t id' :
  id' <> id -> payments (reconciled d id p st t) !! id' = payments d !! id'.
Proof.
  intros Hne. unfold reconciled.
  destruct (include_booking d p) as [[bid b]|]; simpl;
    [destruct (_ && _); simpl|]; by apply lookup_insert_ne.
Qed.

Lemma reconciled_booking d id p st t bid :
  bookings (reconciled d id p st t) !! bid = bookings d !! bid \/
  (st = COMPLETED /\ bookingId p = Some bid /\
   exists b, bookings d !! bid = Some b /\ b_status b = B_PENDING /\
     bookings (reconciled d id p st t) !! bid
       = Some (set_booking_status B_CONFIRMED b)).
Proof.
  unfold reconciled.
  destruct (include_booking d p) as [[bid' b]|] eqn:Hb; simpl; [|by left].
  apply include_booking_Some in Hb as [Hbid Hbk].
  destruct (bool_decide (st = COMPLETED)) eqn:Hst; simpl; [|by left].
  destruct (bool_decide (b_status b = B_PENDING)) eqn:Hpend; simpl; [|by left].
  apply bool_decide_eq_true in Hst, Hpend.
  destruct (decide (bid = bid')) as [->|Hne].
  - right. repeat (split; [done|]). exists b. by rewrite lookup_insert_eq.
  - left. by rewrite lookup_insert_ne.
Qed.

Lemma reconcile_db w c d :
  db (snd (run (reconcile w c) d)) = d \/
  exists id p st,
    payments d !! id = Some p /\
    db (snd (run (reconcile w c) d)) = reconciled d id p st (now w).
Proof.
  destruct c as [req|req]; simpl.
  - destruct (verifyPayment_db w req d)
      as [H|(id & tx & p & r & gs & _ & _ & Hp & _ & _ & _ & H)]; [by left|].
    right. eauto.
  - destruct (handleWebhook_db w req d)
      as [H|(sg & sec & tx & id & p & gs & _ & _ & _ & _ & Hf & _ & H)]; [by left|].
    apply payment_findFirst_Some in Hf as [Hp _]. right. eauto.
Qed.

Lemma omap_Notify (l : list Notification) :
  omap (fun o => match o with Notify n => Some n | _ => None end) (map Notify l) = l.
Proof. induction l as [|n l IH]; [done|]. cbn. by f_equal. Qed.

(** ** C1: the status mapping *)

Example paymentStatus_examples :
  verifyPayment_paymentStatus "SUCCESS" = COMPLETED /\
  verifyPayment_paymentStatus "Fail" = FAILED /\
  verifyPayment_paymentStatus "Pending" = PENDING /\
  verifyPayment_paymentStatus EmptyString = FAILED /\
  handleWebhook_paymentStatus "refunded" = FAILED /\
  handleWebhook_paymentStatus "success " = FAILED.
Proof. repeat split; reflexivity. Qed.

Lemma toLowerCase_ascii_letter (c t : ascii) :
  (97 <= N_of_ascii t <= 122)%N ->
  toLowerCase_ascii c = t <-> same_letter c t.
Proof.
  intros Ht. unfold toLowerCase_ascii, same_letter, upper_of. cbv zeta.
  pose proof (N_ascii_bounded c) as Hc.
  destruct ((65 <=? N_of_ascii c) && (N_of_ascii c <=? 90))%N eqn:Hup.
  - apply andb_true_iff in Hup as [H1%N.leb_le H2%N.leb_le]. split.
    + intros <-. right.
      rewrite N_ascii_embedding by lia.
      replace (N_of_ascii c + 32 - 32)%N with (N_of_ascii c) by lia.
      by rewrite ascii_N_embedding.
    + intros [-> | ->]; [lia|].
      rewrite N_ascii_embedding by lia.
      replace (N_of_ascii t - 32 + 32)%N with (N_of_ascii t) by lia.
      apply ascii_N_embedding.
  - split; [by left|]. intros [-> | ->]; [done|]. exfalso.
    rewrite N_ascii_embedding in Hup by lia.
    apply andb_false_iff in Hup as [H%N.leb_gt|H%N.leb_gt]; lia.
Qed.

Lemma toLowerCase_spelled (w : string) :
  lower_word w -> forall s, toLowerCase s = w <-> spelled s w.
Proof.
  induction w as [|t v IH]; intros Hw s; destruct s as [|c r]; simpl; try tauto.
  - split; [discriminate|done].
  - split; [discriminate|done].
  - destruct Hw as [Ht Hv]. rewrite <- (IH Hv r).
    rewrite <- (toLowerCase_ascii_letter c t Ht).
    split; [by intros [= -> ->]|by intros [-> ->]].
Qed.

Lemma spelled_length s w : spelled s w -> String.length s = String.length w.
Proof.
  revert w. induction s as [|c r IH]; intros [|t v]; simpl; try tauto.
  intros [_ H]. by rewrite (IH v).
Qed.

(** C1.  For every status string [gw_status] the gateway reports, the
    poll path and the webhook path map it to the same internal status; that
    status is COMPLETED exactly when the string spells "success" in any mix
    of upper and lower case, PENDING exactly when it spells "pending",
    FAILED when it spells "failed" or "fail" and also for every other
    string, and never REFUNDED.  In terms of the lower-cased string: the
    status is COMPLETED, FAILED, FAILED, PENDING for "success", "failed",
    "fail", "pending", and FAILED for any other value. *)
Theorem C1_status_mapping (gw_status : string) :
  handleWebhook_paymentStatus gw_status = verifyPayment_paymentStatus gw_status /\
  (verifyPayment_paymentStatus gw_status = COMPLETED <-> spelled gw_status "success") /\
  (verifyPayment_paymentStatus gw_status = PENDING <-> spelled gw_status "pending") /\
  (verifyPayment_paymentStatus gw_status = FAILED <->
     ~ spelled gw_status "success" /\ ~ spelled gw_status "pending") /\
  (spelled gw_status "failed" \/ spelled gw_status "fail" ->
     verifyPayment_paymentStatus gw_status = FAILED) /\
  verifyPayment_paymentStatus gw_status <> REFUNDED /\
  verifyPayment_paymentStatus "SUCCESS" = COMPLETED /\
  verifyPayment_paymentStatus "Pending" = PENDING /\
  ((toLowerCase gw_status = "success" /\
      verifyPayment_paymentStatus gw_status = COMPLETED) \/
   ((toLowerCase gw_status = "failed" \/ toLowerCase gw_status = "fail") /\
      verifyPayment_paymentStatus gw_status = FAILED) \/
   (toLowerCase gw_status = "pending" /\
      verifyPayment_paymentStatus gw_status = PENDING) \/
   (toLowerCase gw_status <> "success" /\ toLowerCase gw_status <> "failed" /\
    toLowerCase gw_status <> "fail" /\ toLowerCase gw_status <> "pending" /\
      verifyPayment_paymentStatus gw_status = FAILED)).
Proof.
  assert (Hs : toLowerCase gw_status = "success" <-> spelled gw_status "success")
    by (apply toLowerCase_spelled; simpl; lia).
  assert (Hp : toLowerCase gw_status = "pending" <-> spelled gw_status "pending")
    by (apply toLowerCase_spelled; simpl; lia).
  assert (Hf : toLowerCase gw_status = "failed" <-> spelled gw_status "failed")
    by (apply toLowerCase_spelled; simpl; lia).
  assert (Hf' : toLowerCase gw_status = "fail" <-> spelled gw_status "fail")
    by (apply toLowerCase_spelled; simpl; lia).
  split; [reflexivity|].
  rewrite <- Hs, <- Hp, <- Hf, <- Hf'.
  unfold verifyPayment_paymentStatus. cbv zeta.
  change (toLowerCase "SUCCESS") with "success".
  change (toLowerCase "Pending") with "pending". simpl String.eqb at 5 6 7 8 9.
  destruct (String.eqb_spec (toLowerCase gw_status) "success") as [E1|N1].
  { rewrite E1. repeat split; try done; try (by intros [? ?]); try by left.
    by intros [?|?]. }
  destruct (String.eqb_spec (toLowerCase gw_status) "failed") as [E2|N2].
  { rewrite E2. repeat split; try done. right; left. split; [by left|done]. }
  destruct (String.eqb_spec (toLowerCase gw_status) "fail") as [E3|N3].
  { rewrite E3. repeat split; try done. right; left. split; [by right|done]. }
  destruct (String.eqb_spec (toLowerCase gw_status) "pending") as [E4|N4].
  { rewrite E4. repeat split; try done; try (by intros [? ?]).
    - by intros [?|?].
    - right; right; by left. }
  repeat split; try done. right; right; right. done.
Qed.

(** ** C2: booking confirmation *)

(** C2.  Whatever a reconciliation call (poll or webhook) does, every
    booking row is either left as it was, or it was PENDING and is now the
    same row with status CONFIRMED while a payment pointing to it has been
    written COMPLETED; in particular a booking that is not PENDING (already
    CONFIRMED, or COMPLETED, or CANCELLED) is left unchanged, and a booking
    that ends CONFIRMED without having been so was PENDING and has a
    COMPLETED payment.  Payment initiation changes no booking. *)
Theorem C2_booking_confirmation (w : World) (d : DB) (bid : string) :
  (forall c, booking_effect d (db (snd (run (reconcile w c) d))) bid) /\
  (forall c b, bookings d !! bid = Some b -> b_status b <> B_PENDING ->
     bookings (db (snd (run (reconcile w c) d))) !! bid = Some b) /\
  (forall req,
     bookings (db (snd (run (initiatePayment w req) d))) !! bid = bookings d !! bid).
Proof.
  assert (Heff : forall c, booking_effect d (db (snd (run (reconcile w c) d))) bid).
  { intros c. unfold booking_effect.
    destruct (reconcile_db w c d) as [->|(id & p & st & Hp & ->)]; [by left|].
    destruct (reconciled_booking d id p st (now w) bid)
      as [H|(Hst & Hbid & b & Hb & Hpend & Hb')]; [by left|].
    right. exists b, id, (set_status_updatedAt st (now w) p).
    rewrite reconciled_payment. by subst st. }
  split; [done|]. split.
  - intros c b Hb Hnp. destruct (Heff c) as [->|(b0 & _ & _ & Hb0 & Hpend & _)];
      [done|congruence].
  - intros req. f_equal.
    destruct (present_number (i_amount req)) as [amt|] eqn:Ha;
      [|unfold run, initiatePayment; by rewrite Ha].
    unfold run, initiatePayment, initiate_checkout. rewrite Ha. unfold_M.
    repeat case_match; simpl in *; simplify_eq; done.
Qed.

(** The second scenario of the booking invariant: a poll and then a
    webhook both report success for [p1]; the booking is confirmed by the
    first call and is the same row after the second. *)
Example poll_then_webhook_confirms_once :
  let after_poll :=
    db (snd (run (verifyPayment Scenario.world_paid
                    (mkVerifyRequest (Some "p1") (Some "payment-p1-u0") "u1"))
               Scenario.market)) in
  let after_webhook :=
    db (snd (run (handleWebhook Scenario.world_paid
                    (Scenario.signed "{}" (Some "payment-p1-u0") (Some "success")))
               after_poll)) in
  bookings after_poll !! "b1" = Some (set_booking_status B_CONFIRMED Scenario.b1) /\
  bookings after_webhook !! "b1" = bookings after_poll !! "b1" /\
  status <$> payments after_webhook !! "p1" = Some COMPLETED.
Proof. vm_compute. done. Qed.

(** ** C3: a poll by somebody who does not own the payment *)

(** C3, as amended.  When the caller of a poll is not the user the payment
    belongs to, nothing is written: the database after the call is the
    database before it.  If the call carries a transaction reference it
    fails with status 403; if the reference is missing or empty it fails
    with status 400, the input check coming first. *)
Theorem C3_poll_by_non_owner (w : World) (req : VerifyRequest) (d : DB)
    (id : string) (p : Payment) :
  present (v_paymentId req) = Some id ->
  payments d !! id = Some p ->
  userId p <> v_user req ->
  db (snd (run (verifyPayment w req) d)) = d /\
  (forall tx, present (v_tx_ref req) = Some tx ->
     run (verifyPayment w req) d =
     (Throw (Error "Unauthorized: Payment does not belong to this user"),
      mkSt d 403 None [])) /\
  (present (v_tx_ref req) = None ->
     run (verifyPayment w req) d =
     (Throw (Error "Payment ID and transaction reference are required"),
      mkSt d 400 None [])).
Proof.
  intros Hid Hp Hu. apply String.eqb_neq in Hu.
  assert (H403 : forall tx, present (v_tx_ref req) = Some tx ->
            run (verifyPayment w req) d =
            (Throw (Error "Unauthorized: Payment does not belong to this user"),
             mkSt d 403 None [])).
  { intros tx Htx. unfold run, verifyPayment. rewrite Hid, Htx. unfold_M. simpl.
    by rewrite Hp, Hu. }
  assert (H400 : present (v_tx_ref req) = None ->
            run (verifyPayment w req) d =
            (Throw (Error "Payment ID and transaction reference are required"),
             mkSt d 400 None [])).
  { intros Htx. unfold run, verifyPayment. by rewrite Hid, Htx. }
  split; [|done].
  destruct (present (v_tx_ref req)) as [tx|] eqn:Htx.
  - by rewrite (H403 tx).
  - by rewrite H400.
Qed.

Lemma C3_poll_by_non_owner_witness :
  run (verifyPayment Scenario.world
         (mkVerifyRequest (Some "p1") (Some "payment-p1-u0") "mallory"))
      Scenario.market =
  (Throw (Error "Unauthorized: Payment does not belong to this user"),
   mkSt Scenario.market 403 None []).
Proof.
  refine (proj1 (proj2 (C3_poll_by_non_owner Scenario.world
            (mkVerifyRequest (Some "p1") (Some "payment-p1-u0") "mallory")
            Scenario.market "p1" Scenario.p1 _ _ _)) "payment-p1-u0" _).
  - reflexivity.
  - vm_compute. reflexivity.
  - vm_compute. discriminate.
  - reflexivity.
Defined.

(** C3 as stated fails: the payment [p1] belongs to "u1", the caller is
    "mallory", the call has no transaction reference, and the status is 400,
    not 403. *)
Lemma C3_counterexample :
  payments Scenario.market !! "p1" = Some Scenario.p1 /\
  userId Scenario.p1 <> "mallory" /\
  statusCode (snd (run (verifyPayment Scenario.world
                          (mkVerifyRequest (Some "p1") None "mallory"))
                     Scenario.market)) = 400 /\
  statusCode (snd (run (verifyPayment Scenario.world
                          (mkVerifyRequest (Some "p1") None "mallory"))
                     Scenario.market)) <> 403.
Proof. vm_compute. repeat split; discriminate. Qed.

(** ** C4: a webhook whose signature is missing or wrong *)

(** C4.  A webhook call whose signature header is missing (absent or
    empty), or whose header differs from the keyed hash of the payload
    under the configured secret, or that arrives while no secret is
    configured, is answered 401 "Unauthorized" and leaves the database as
    it was; no outbound call is made. *)
Theorem C4_webhook_bad_signature (w : World) (req : WebhookRequest) (d : DB) :
  (present (chapa_signature req) = None \/
   present (CHAPA_WEBHOOK_SECRET w) = None \/
   exists signature secret,
     present (chapa_signature req) = Some signature /\
     present (CHAPA_WEBHOOK_SECRET w) = Some secret /\
     createHmac_sha256_hex w secret (payload req) <> signature) ->
  run (handleWebhook w req) d = (Ok tt, mkSt d 401 (Some (Text "Unauthorized")) []).
Proof.
  intros [Hsig|[Hsec|(sg & sec & Hsig & Hsec & Hh)]];
    unfold run, handleWebhook.
  - by rewrite Hsig.
  - rewrite Hsec. by destruct (present (chapa_signature req)).
  - apply String.eqb_neq in Hh. by rewrite Hsig, Hsec, Hh.
Qed.

Lemma C4_webhook_bad_signature_witness :
  run (handleWebhook Scenario.world
         (mkWebhookRequest (Some "forged") "{}" (Some "payment-p1-u0") (Some "success")))
      Scenario.market =
  (Ok tt, mkSt Scenario.market 401 (Some (Text "Unauthorized")) []).
Proof.
  apply (C4_webhook_bad_signature Scenario.world
           (mkWebhookRequest (Some "forged") "{}" (Some "payment-p1-u0") (Some "success"))
           Scenario.market).
  right; right. exists "forged", "whsec". vm_compute. repeat split; discriminate.
Defined.

(** ** Payment initiation *)

Lemma initiatePayment_checked w req d amt vid bid uid client vendor sub admin :
  checks_pass d req amt vid bid uid client vendor sub admin ->
  run (initiatePayment w req) d =
  initiate_checkout w amt vid bid uid client vendor sub admin (fresh d).
Proof.
  intros (Ha & Hv & Hb & Hu & Hc & (booking & service & Hbk & Hown & Hsv & Hvid)
          & Hvendor & Hsub & Hadmin).
  unfold run, initiatePayment. rewrite Ha, Hv, Hb, Hu. unfold_M. simpl.
  rewrite Hc, Hbk, Hown, String.eqb_refl. simpl.
  unfold include_service, include_vendor. rewrite Hsv. simpl.
  rewrite Hvid, Hvendor. simpl. rewrite String.eqb_refl. simpl.
  by rewrite Hadmin, Hsub.
Qed.

Lemma initiatePayment_cases w req d :
  (exists e code, run (initiatePayment w req) d = (Throw e, mkSt d code None [])) \/
  (exists amt vid bid uid client vendor sub admin,
     checks_pass d req amt vid bid uid client vendor sub admin).
Proof.
  unfold checks_pass, run, initiatePayment.
  destruct (present_number (i_amount req)) as [amt|]; [|left; eauto].
  destruct (present (i_vendorId req)) as [vid|]; [|left; eauto].
  destruct (present (i_bookingId req)) as [bid|]; [|left; eauto].
  destruct (present (i_userId req)) as [uid|]; [|left; eauto].
  unfold_M. simpl.
  destruct (clients d !! uid) as [client|] eqn:Hc; [|left; eauto].
  destruct (bookings d !! bid) as [booking|] eqn:Hbk; [|left; eauto].
  destruct (String.eqb_spec (b_clientId booking) (c_id client)) as [Hown|Hown];
    simpl; [|left; eauto].
  unfold include_service, include_vendor.
  destruct (services d !! b_serviceId booking) as [service|] eqn:Hsv; simpl;
    [|left; eauto].
  destruct (vendors d !! s_vendorId service) as [vendor|] eqn:Hvendor; simpl;
    [|left; eauto].
  destruct (String.eqb_spec (s_vendorId service) vid) as [Hvid|Hvid]; simpl;
    [|left; eauto].
  subst vid. rewrite Hvendor.
  destruct (chapaSubaccount_findFirst_admin d) as [admin|] eqn:Hadmin; [|left; eauto].
  destruct (present (chapaSubaccountId vendor)) as [sub|] eqn:Hsub; [|left; eauto].
  right. exists amt, (s_vendorId service), bid, uid, client, vendor, sub, admin.
  repeat (split; [done|]). split; [|done]. by exists booking, service.
Qed.

(** C5, as amended.  A payment-initiation call that carries its four
    fields and fails one of the precondition checks is rejected with a
    specific reason and without any write (in particular no payment row is
    created) and without any call to the gateway.  The status is 400 when
    the caller has no client profile, 404 when the booking does not exist,
    403 when the booking is not the client's, 400 when the named vendor is
    not the booking's vendor, and 500 when the vendor has no payout
    subaccount or no platform subaccount of type ADMIN exists. *)
Theorem C5_initiation_rejected (w : World) (req : InitiateRequest) (d : DB)
    (amt : float) (vid bid uid : string) :
  present_number (i_amount req) = Some amt ->
  present (i_vendorId req) = Some vid ->
  present (i_bookingId req) = Some bid ->
  present (i_userId req) = Some uid ->
  (clients d !! uid = None ->
     rejected w req d 400 "Client profile not found") /\
  (forall client,
     clients d !! uid = Some client -> bookings d !! bid = None ->
     rejected w req d 404 "Booking not found") /\
  (forall client booking,
     clients d !! uid = Some client -> bookings d !! bid = Some booking ->
     b_clientId booking <> c_id client ->
     rejected w req d 403 "Unauthorized: Booking does not belong to this client") /\
  (forall client booking service vendor,
     clients d !! uid = Some client -> bookings d !! bid = Some booking ->
     b_clientId booking = c_id client ->
     services d !! b_serviceId booking = Some service ->
     vendors d !! s_vendorId service = Some vendor ->
     s_vendorId service <> vid ->
     rejected w req d 400 "Vendor ID does not match the booking's vendor") /\
  (forall client booking service vendor,
     clients d !! uid = Some client -> bookings d !! bid = Some booking ->
     b_clientId booking = c_id client ->
     services d !! b_serviceId booking = Some service ->
     vendors d !! s_vendorId service = Some vendor ->
     s_vendorId service = vid ->
     present (chapaSubaccountId vendor) = None \/
       chapaSubaccount_findFirst_admin d = None ->
     rejected w req d 500 "Payment accounts not configured").
Proof.
  intros Ha Hv Hb Hu. unfold rejected, run, initiatePayment.
  rewrite Ha, Hv, Hb, Hu. unfold_M. simpl. repeat split.
  - intros Hc. by rewrite Hc.
  - intros client Hc Hbk. by rewrite Hc, Hbk.
  - intros client booking Hc Hbk Hown. apply String.eqb_neq in Hown.
    by rewrite Hc, Hbk, Hown.
  - intros client booking service vendor Hc Hbk Hown Hsv Hvendor Hvid.
    apply String.eqb_neq in Hvid.
    rewrite Hc, Hbk, Hown, String.eqb_refl. simpl.
    unfold include_service, include_vendor. rewrite Hsv. simpl. rewrite Hvendor.
    simpl. by rewrite Hvid.
  - intros client booking service vendor Hc Hbk Hown Hsv Hvendor Hvid Hmissing.
    rewrite Hc, Hbk, Hown, String.eqb_refl. simpl.
    unfold include_service, include_vendor. rewrite Hsv. simpl. rewrite Hvendor.
    simpl. rewrite Hvid, String.eqb_refl. simpl.
    rewrite <- Hvid, Hvendor.
    destruct Hmissing as [Hsub|Hadmin].
    + rewrite Hsub. by destruct (chapaSubaccount_findFirst_admin d).
    + by rewrite Hadmin.
Qed.

Lemma C5_initiation_rejected_witness :
  rejected Scenario.world
    (mkInitiateRequest (Some 100%float) (Some "v1") (Some "b1") (Some "u1"))
    Scenario.market_no_subaccount 500 "Payment accounts not configured".
Proof.
  refine (proj2 (proj2 (proj2 (proj2
            (C5_initiation_rejected Scenario.world
               (mkInitiateRequest (Some 100%float) (Some "v1") (Some "b1") (Some "u1"))
               Scenario.market_no_subaccount 100%float "v1" "b1" "u1" _ _ _ _))))
            (mkClient "c1") Scenario.b1 (mkService "Photography" "v1")
            (mkVendor "uv1" "Lens and Light" None) _ _ _ _ _ _ _);
    try (vm_compute; reflexivity).
  left; reflexivity.
Defined.

(** C5 as stated fails: the vendor of the booking has no payout subaccount,
    the call is rejected, and the status is 500, which is not a 4xx. *)
Lemma C5_counterexample :
  (chapaSubaccountId <$> vendors Scenario.market_no_subaccount !! "v1") = Some None /\
  statusCode (snd (run (initiatePayment Scenario.world
                          (mkInitiateRequest (Some 100%float) (Some "v1")
                             (Some "b1") (Some "u1")))
                     Scenario.market_no_subaccount)) = 500 /\
  ~ (400 <= statusCode (snd (run (initiatePayment Scenario.world
                          (mkInitiateRequest (Some 100%float) (Some "v1")
                             (Some "b1") (Some "u1")))
                     Scenario.market_no_subaccount)) < 500).
Proof. vm_compute. repeat split. intros [_ H]. discriminate. Qed.

(** C6.  When every check of a payment-initiation call passes, the new
    row is created (its generated key is free) and the gateway rejects the
    checkout request, then the call ends in the error "Payment initiation
    failed" with status 500 and no body sent; the row is still in the
    table under the generated key, its status is FAILED, its amount, owner,
    booking, splits and timestamps are as created and it carries no
    transaction reference; every other payment row is as before; and the
    gateway was called exactly once, the notifier never. *)
Theorem C6_checkout_failure (w : World) (req : InitiateRequest) (d : DB)
    (amt : float) (vid bid uid : string) (client : Client) (vendor : Vendor)
    (sub : string) (admin : ChapaSubaccount) :
  checks_pass d req amt vid bid uid client vendor sub admin ->
  payments d !! generated_id w = None ->
  chapa_initialize w (initialize_request w amt admin sub) = None ->
  run (initiatePayment w req) d =
  (Throw (Error "Payment initiation failed"),
   mkSt (with_payments d
           (<[generated_id w :=
                set_status FAILED (new_payment w amt vid bid uid client vendor)]>
              (payments d)))
        500 None [ChapaInitialize (initialize_request w amt admin sub)]) /\
  fst (run (initiatePayment w req) d) = Throw (Error "Payment initiation failed") /\
  statusCode (snd (run (initiatePayment w req) d)) = 500 /\
  sent (snd (run (initiatePayment w req) d)) = None /\
  (exists r, outbound (snd (run (initiatePayment w req) d)) = [ChapaInitialize r] /\
             ir_tx_ref r = new_tx_ref w /\ ir_amount r = amt) /\
  (exists p,
     payments (db (snd (run (initiatePayment w req) d))) !! generated_id w = Some p /\
     status p = FAILED /\
     amount p = amt /\ method p = "CHAPA" /\ transactionId p = None /\
     bookingId p = Some bid /\ userId p = uid /\ recipientId p = v_userId vendor /\
     clientId p = Some (c_id client) /\ vendorId p = Some vid /\
     adminSplit p = Some (amt * 0.1)%float /\
     vendorSplit p = Some (amt * 0.9)%float /\
     createdAt p = now w /\ updatedAt p = now w) /\
  (forall id, id <> generated_id w ->
     payments (db (snd (run (initiatePayment w req) d))) !! id = payments d !! id).
Proof.
  intros Hchecks Hfresh Hgw.
  rewrite (initiatePayment_checked w req d amt vid bid uid client vendor sub admin)
    by done.
  rewrite initiate_checkout_run by done. cbv zeta. rewrite Hgw.
  cbn [fst snd db statusCode sent outbound fresh payments with_payments].
  split; [done|]. do 3 (split; [done|]). split; [eauto|]. split.
  - eexists. rewrite lookup_insert_eq. split; [reflexivity|]. repeat split.
  - intros id Hne. by rewrite lookup_insert_ne.
Qed.

Lemma C6_checkout_failure_witness :
  fst (run (initiatePayment Scenario.world_gateway_down
         (mkInitiateRequest (Some 100%float) (Some "v1") (Some "b1") (Some "u1")))
      Scenario.market) = Throw (Error "Payment initiation failed") /\
  statusCode (snd (run (initiatePayment Scenario.world_gateway_down
         (mkInitiateRequest (Some 100%float) (Some "v1") (Some "b1") (Some "u1")))
      Scenario.market)) = 500 /\
  status <$> payments (db (snd (run (initiatePayment Scenario.world_gateway_down
         (mkInitiateRequest (Some 100%float) (Some "v1") (Some "b1") (Some "u1")))
      Scenario.market))) !! "p2" = Some FAILED /\
  outbound (snd (run (initiatePayment Scenario.world_gateway_down
         (mkInitiateRequest (Some 100%float) (Some "v1") (Some "b1") (Some "u1")))
      Scenario.market)) =
  [ChapaInitialize (mkInitializeRequest 100 "payment-p2-u2" "sub-admin" 10 "sub-v1" 90)].
Proof.
  destruct (C6_checkout_failure Scenario.world_gateway_down
           (mkInitiateRequest (Some 100%float) (Some "v1") (Some "b1") (Some "u1"))
           Scenario.market 100%float "v1" "b1" "u1" (mkClient "c1")
           (mkVendor "uv1" "Lens and Light" (Some "sub-v1")) "sub-v1"
           (mkChapaSubaccount "sub-admin" "ADMIN"))
    as (Hrun & Hres & Hcode & _ & _ & (p & Hp & Hst & _) & _).
  - unfold checks_pass. repeat split; try (vm_compute; reflexivity).
    exists Scenario.b1, (mkService "Photography" "v1").
    repeat split; vm_compute; reflexivity.
  - vm_compute. reflexivity.
  - reflexivity.
  - split; [exact Hres|]. split; [exact Hcode|]. split.
    + change "p2" with (generated_id Scenario.world_gateway_down).
      rewrite Hp. simpl. by rewrite Hst.
    + rewrite Hrun. reflexivity.
Defined.

(** A response without [data.data] is treated like a failed request, after
    the transaction reference has been stored. *)
Lemma checkout_malformed_response w req d amt vid bid uid client vendor sub admin :
  checks_pass d req amt vid bid uid client vendor sub admin ->
  payments d !! generated_id w = None ->
  chapa_initialize w (initialize_request w amt admin sub) = Some None ->
  run (initiatePayment w req) d =
  (Throw (Error "Payment initiation failed"),
   mkSt (with_payments d
           (<[generated_id w :=
                set_status FAILED
                  (set_transactionId (new_tx_ref w)
                     (new_payment w amt vid bid uid client vendor))]>
              (payments d)))
        500 None [ChapaInitialize (initialize_request w amt admin sub)]).
Proof.
  intros Hchecks Hfresh Hgw.
  rewrite (initiatePayment_checked w req d amt vid bid uid client vendor sub admin)
    by done.
  rewrite initiate_checkout_run by done. cbv zeta. by rewrite Hgw.
Qed.

(** ** C9: the splits *)

(** C9, as amended.  A payment-initiation call that succeeds (the handler
    returns and the checkout JSON was sent) has created a row under the
    generated key which, when the call ends, has status PENDING, the
    requested amount, [adminSplit] equal to the binary64 product
    [amount * 0.1] and [vendorSplit] equal to the binary64 product
    [amount * 0.9], and carries the transaction reference that was sent. *)
Theorem C9_splits (w : World) (req : InitiateRequest) (d : DB) (s' : St) :
  run (initiatePayment w req) d = (Ok tt, s') ->
  exists amt p,
    present_number (i_amount req) = Some amt /\
    payments d !! generated_id w = None /\
    payments (db s') !! generated_id w = Some p /\
    status p = PENDING /\
    amount p = amt /\
    adminSplit p = Some (amt * 0.1)%float /\
    vendorSplit p = Some (amt * 0.9)%float /\
    transactionId p = Some (new_tx_ref w) /\
    statusCode s' = 200 /\
    exists url, sent s' = Some (InitiateJson url (generated_id w) (new_tx_ref w)).
Proof.
  intros Hrun.
  destruct (initiatePayment_cases w req d)
    as [(e & code & H)|(amt & vid & bid & uid & client & vendor & sub & admin & Hc)];
    [congruence|].
  rewrite (initiatePayment_checked w req d amt vid bid uid client vendor sub admin)
    in Hrun by done.
  destruct (payments d !! generated_id w) as [p0|] eqn:Hfresh.
  { rewrite (initiate_checkout_taken _ _ _ _ _ _ _ _ _ _ p0) in Hrun by done.
    discriminate. }
  rewrite initiate_checkout_run in Hrun by done. cbv zeta in Hrun.
  destruct (chapa_initialize w _) as [[url|]|]; try discriminate.
  injection Hrun as <-. simpl.
  exists amt, (set_transactionId (new_tx_ref w)
                 (new_payment w amt vid bid uid client vendor)).
  rewrite lookup_insert_eq. destruct Hc as (Ha & _). repeat (split; [done|]). eauto.
Qed.

Lemma C9_splits_witness :
  exists amt p,
    present_number (Some 13%float) = Some amt /\
    payments Scenario.market !! "p2" = None /\
    payments (db (snd (run (initiatePayment Scenario.world
         (mkInitiateRequest (Some 13%float) (Some "v1") (Some "b1") (Some "u1")))
         Scenario.market))) !! "p2" = Some p /\
    status p = PENDING /\
    amount p = amt /\
    adminSplit p = Some (amt * 0.1)%float /\
    vendorSplit p = Some (amt * 0.9)%float /\
    transactionId p = Some "payment-p2-u2" /\
    statusCode (snd (run (initiatePayment Scenario.world
         (mkInitiateRequest (Some 13%float) (Some "v1") (Some "b1") (Some "u1")))
         Scenario.market)) = 200 /\
    exists url,
      sent (snd (run (initiatePayment Scenario.world
         (mkInitiateRequest (Some 13%float) (Some "v1") (Some "b1") (Some "u1")))
         Scenario.market))
      = Some (InitiateJson url "p2" "payment-p2-u2").
Proof.
  apply (C9_splits Scenario.world
           (mkInitiateRequest (Some 13%float) (Some "v1") (Some "b1") (Some "u1"))
           Scenario.market).
  vm_compute. reflexivity.
Defined.

(** C9 as stated fails: for the amount 13 the call succeeds and the row
    holds adminSplit = 13 * 0.1 and vendorSplit = 13 * 0.9, whose sum is
    13.000000000000002, not 13. *)
Lemma C9_counterexample :
  exists s' p a v,
    run (initiatePayment Scenario.world
           (mkInitiateRequest (Some 13%float) (Some "v1") (Some "b1") (Some "u1")))
        Scenario.market = (Ok tt, s') /\
    payments (db s') !! "p2" = Some p /\
    amount p = 13%float /\
    adminSplit p = Some a /\ vendorSplit p = Some v /\
    PrimFloat.eqb (a + v) (amount p) = false /\
    PrimFloat.ltb (amount p) (a + v) = true.
Proof.
  eexists _, _, _, _. vm_compute. repeat split.
Qed.

(** ** C7: the status write is unconditional *)




Example webhook_regresses_completed_payment :
  status <$> payments (db (snd (run (handleWebhook Scenario.world
                 (Scenario.signed "{}" (Some "payment-p1-u0") (Some "failed")))
               Scenario.market_paid))) !! "p1" = Some FAILED.
Proof. vm_compute. reflexivity. Qed.

(** ** C10: the poll does not check the transaction reference *)

(** C10.  The status a poll writes on the payment [id] is the mapped
    status the gateway has for the reference [tx] the caller supplied,
    whatever reference the row stores; and there is a call in which the
    caller owns the payment, supplies the reference of another transaction,
    and the payment, whose own transaction the gateway reports as pending,
    is written COMPLETED. *)
Theorem C10_tx_ref_not_checked :
  (forall w d req id tx p r gs,
     present (v_paymentId req) = Some id ->
     present (v_tx_ref req) = Some tx ->
     payments d !! id = Some p ->
     userId p = v_user req ->
     chapa_verify w tx = Some r ->
     vr_status r = Some gs ->
     status <$> payments (db (snd (run (verifyPayment w req) d))) !! id =
     Some (verifyPayment_paymentStatus gs)) /\
  (exists w d req id tx own p,
     present (v_paymentId req) = Some id /\
     present (v_tx_ref req) = Some tx /\
     payments d !! id = Some p /\
     userId p = v_user req /\
     transactionId p = Some own /\
     tx <> own /\
     vr_status <$> chapa_verify w own = Some (Some "pending") /\
     vr_status <$> chapa_verify w tx = Some (Some "success") /\
     status p = PENDING /\
     status <$> payments (db (snd (run (verifyPayment w req) d))) !! id =
     Some COMPLETED).
Proof.
  split.
  - intros w d req id tx p r gs Hid Htx Hp Hu Hr Hgs.
    destruct (verifyPayment_run w req d id tx p r gs) as (res & code & body & ->);
      [done..|].
    simpl. by rewrite reconciled_payment.
  - exists Scenario.world, Scenario.market,
      (mkVerifyRequest (Some "p1") (Some "payment-p9-u9") "u1"),
      "p1", "payment-p9-u9", "payment-p1-u0", Scenario.p1.
    vm_compute. repeat split; discriminate.
Qed.

(** ** C8: notifications *)

Lemma sim_verifyPayment w f req :
  simM (verifyPayment w req) (verifyPayment (with_notifier w f) req).
Proof. unfold verifyPayment, verify_reconcile. simpl. sim_blocks. Qed.

Lemma sim_handleWebhook w f req :
  simM (handleWebhook w req) (handleWebhook (with_notifier w f) req).
Proof. unfold handleWebhook, webhook_reconcile. simpl. sim_blocks. Qed.

Lemma sim_reconcile w f c :
  simM (reconcile w c) (reconcile (with_notifier w f) c).
Proof. destruct c; [apply sim_verifyPayment | apply sim_handleWebhook]. Qed.

(** C8, as amended.  A poll whose mapped status is COMPLETED and whose
    payment has a booking, and a webhook whose mapped status is COMPLETED
    and whose payment has a booking that is still PENDING, call the
    notifier for the payment-completion e-mail and then, if that call did
    not fail, for the new-booking e-mail; a webhook whose booking is not
    PENDING calls no notifier.  Whether the notifier calls fail or not,
    every reconciliation call ends with the same result, the same database,
    the same response status and the same response body. *)
Theorem C8_notifications (w : World) (d : DB) :
  (forall req id tx p r gs bid b service,
     present (v_paymentId req) = Some id ->
     present (v_tx_ref req) = Some tx ->
     payments d !! id = Some p ->
     userId p = v_user req ->
     chapa_verify w tx = Some r ->
     vr_status r = Some gs ->
     verifyPayment_paymentStatus gs = COMPLETED ->
     include_booking d p = Some (bid, b) ->
     include_service d b = Some service ->
     notifications (snd (run (verifyPayment w req) d)) =
     sendPaymentCompletionToVendor id bid (fst <$> include_vendor d service) ::
     (if notifier w
           (sendPaymentCompletionToVendor id bid (fst <$> include_vendor d service))
      then [sendNewBookingToVendor bid (fst <$> include_vendor d service)]
      else [])) /\
  (forall req signature secret tx id p gs bid b service,
     present (chapa_signature req) = Some signature ->
     present (CHAPA_WEBHOOK_SECRET w) = Some secret ->
     createHmac_sha256_hex w secret (payload req) = signature ->
     present (wh_tx_ref req) = Some tx ->
     payment_findFirst_by_transactionId d tx = Some (id, p) ->
     wh_status req = Some gs ->
     handleWebhook_paymentStatus gs = COMPLETED ->
     include_booking d p = Some (bid, b) ->
     include_service d b = Some service ->
     notifications (snd (run (handleWebhook w req) d)) =
     if bool_decide (b_status b = B_PENDING) then
       sendPaymentCompletionToVendor id bid (fst <$> include_vendor d service) ::
       (if notifier w
             (sendPaymentCompletionToVendor id bid (fst <$> include_vendor d service))
        then [sendNewBookingToVendor bid (fst <$> include_vendor d service)]
        else [])
     else []) /\
  (forall c f,
     fst (run (reconcile w c) d) = fst (run (reconcile (with_notifier w f) c) d) /\
     db (snd (run (reconcile w c) d))
       = db (snd (run (reconcile (with_notifier w f) c) d)) /\
     statusCode (snd (run (reconcile w c) d))
       = statusCode (snd (run (reconcile (with_notifier w f) c) d)) /\
     sent (snd (run (reconcile w c) d))
       = sent (snd (run (reconcile (with_notifier w f) c) d))).
Proof.
  split; [|split].
  - intros req id tx p r gs bid b sv Hid Htx Hp Hu Hr Hgs Hst Hb Hsv.
    destruct (verifyPayment_run w req d id tx p r gs) as (res & code & body & ->);
      [done..|].
    unfold notifications. cbn [snd outbound omap list_omap]. rewrite omap_Notify.
    unfold reconcile_notified, notified. rewrite Hb, Hst, Hsv. simpl.
    by destruct (notifier w _).
  - intros req sg sec tx id p gs bid b sv Hsig Hsec Hh Htx Hf Hgs Hst Hb Hsv.
    rewrite (handleWebhook_run w req d sg sec tx id p gs) by done.
    unfold notifications. cbn [snd outbound]. rewrite omap_Notify.
    unfold webhook_notified, notified. rewrite Hb, Hst, Hsv. simpl.
    destruct (bool_decide (b_status b = B_PENDING)); [|done].
    by destruct (notifier w _).
  - intros c f. apply (sim_reconcile w f c (fresh d) (fresh d)). done.
Qed.

(** C8 as stated fails: the webhook reports "success" for [p1], whose
    booking the poll has already confirmed; the mapped status is COMPLETED,
    the call answers 200, and the notifier is not called at all. *)
Lemma C8_counterexample :
  handleWebhook_paymentStatus "success" = COMPLETED /\
  statusCode (snd (run (handleWebhook Scenario.world
                          (Scenario.signed "{}" (Some "payment-p1-u0") (Some "success")))
                     Scenario.market_paid)) = 200 /\
  status <$> payments (db (snd (run (handleWebhook Scenario.world
                          (Scenario.signed "{}" (Some "payment-p1-u0") (Some "success")))
                     Scenario.market_paid))) !! "p1" = Some COMPLETED /\
  notifications (snd (run (handleWebhook Scenario.world
                          (Scenario.signed "{}" (Some "payment-p1-u0") (Some "success")))
                     Scenario.market_paid)) = [].
Proof. vm_compute. done. Qed.

(** When the first notifier call fails the second one is not made, and the
    poll still answers 200 with the payment COMPLETED and the booking
    CONFIRMED. *)
Example first_notification_fails :
  let s := snd (run (verifyPayment (with_notifier Scenario.world_paid (fun _ => false))
                       (mkVerifyRequest (Some "p1") (Some "payment-p1-u0") "u1"))
                  Scenario.market) in
  notifications s = [sendPaymentCompletionToVendor "p1" "b1" (Some "v1")] /\
  statusCode s = 200 /\
  status <$> payments (db s) !! "p1" = Some COMPLETED /\
  b_status <$> bookings (db s) !! "b1" = Some B_CONFIRMED.
Proof. vm_compute. done. Qed.

(** The first scenario of the specification: [p1] and [b1] PENDING, the
    gateway reports success; the payment is COMPLETED, the booking
    CONFIRMED and two notifications are sent. *)
Example poll_success_scenario :
  let s := snd (run (verifyPayment Scenario.world_paid
                       (mkVerifyRequest (Some "p1") (Some "payment-p1-u0") "u1"))
                  Scenario.market) in
  status <$> payments (db s) !! "p1" = Some COMPLETED /\
  b_status <$> bookings (db s) !! "b1" = Some B_CONFIRMED /\
  notifications s = [sendPaymentCompletionToVendor "p1" "b1" (Some "v1");
                     sendNewBookingToVendor "b1" (Some "v1")].
Proof. vm_compute. done. Qed.

(** The second scenario: a webhook delivers "failed" for [p1] still
    PENDING; the payment is FAILED, the booking stays PENDING and no
    notification is sent. *)
Example webhook_failed_scenario :
  let s := snd (run (handleWebhook Scenario.world
                       (Scenario.signed "{}" (Some "payment-p1-u0") (Some "failed")))
                  Scenario.market) in
  status <$> payments (db s) !! "p1" = Some FAILED /\
  b_status <$> bookings (db s) !! "b1" = Some B_PENDING /\
  notifications s = [].
Proof. vm_compute. done. Qed.

Lemma C8_notifications_witness :
  notifications (snd (run (verifyPayment Scenario.world_paid
                             (mkVerifyRequest (Some "p1") (Some "payment-p1-u0") "u1"))
                        Scenario.market)) =
  [sendPaymentCompletionToVendor "p1" "b1" (Some "v1");
   sendNewBookingToVendor "b1" (Some "v1")].
Proof.
  refine (proj1 (C8_notifications Scenario.world_paid Scenario.market)
            (mkVerifyRequest (Some "p1") (Some "payment-p1-u0") "u1")
            "p1" "payment-p1-u0" Scenario.p1 (mkVerifyResponse (Some "success") None)
            "success" "b1" Scenario.b1 (mkService "Photography" "v1")
            _ _ _ _ _ _ _ _ _);
    vm_compute; reflexivity.
Defined.

(** ** The confirmation does happen *)

(** The other direction of the booking invariant: a poll that obtains
    "success" for a payment whose booking is PENDING leaves that booking
    CONFIRMED. *)
Lemma poll_confirms_pending_booking w req d id tx p r gs bid b :
  present (v_paymentId req) = Some id ->
  present (v_tx_ref req) = Some tx ->
  payments d !! id = Some p ->
  userId p = v_user req ->
  chapa_verify w tx = Some r ->
  vr_status r = Some gs ->
  verifyPayment_paymentStatus gs = COMPLETED ->
  include_booking d p = Some (bid, b) ->
  b_status b = B_PENDING ->
  bookings (db (snd (run (verifyPayment w req) d))) !! bid
    = Some (set_booking_status B_CONFIRMED b).
Proof.
  intros Hid Htx Hp Hu Hr Hgs Hst Hb Hpend.
  destruct (verifyPayment_run w req d id tx p r gs) as (res & code & body & ->);
    [done..|].
  simpl. unfold reconciled. rewrite Hb, Hst, Hpend. simpl.
  apply lookup_insert_eq.
Qed.

Lemma webhook_confirms_pending_booking w req d signature secret tx id p gs bid b :
  present (chapa_signature req) = Some signature ->
  present (CHAPA_WEBHOOK_SECRET w) = Some secret ->
  createHmac_sha256_hex w secret (payload req) = signature ->
  present (wh_tx_ref req) = Some tx ->
  payment_findFirst_by_transactionId d tx = Some (id, p) ->
  wh_status req = Some gs ->
  handleWebhook_paymentStatus gs = COMPLETED ->
  include_booking d p = Some (bid, b) ->
  b_status b = B_PENDING ->
  bookings (db (snd (run (handleWebhook w req) d))) !! bid
    = Some (set_booking_status B_CONFIRMED b).
Proof.
  intros Hsig Hsec Hh Htx Hf Hgs Hst Hb Hpend.
  rewrite (handleWebhook_run w req d signature secret tx id p gs) by done.
  simpl. unfold reconciled. rewrite Hb, Hst, Hpend. simpl.
  apply lookup_insert_eq.
Qed.

(** * Further properties of the handlers *)

(** ** From initiation to reconciliation *)

Lemma initiatePayment_success w req d s' :
  run (initiatePayment w req) d = (Ok tt, s') ->
  exists amt vid bid uid client vendor sub admin url,
    checks_pass d req amt vid bid uid client vendor sub admin /\
    payments d !! generated_id w = None /\
    chapa_initialize w (initialize_request w amt admin sub) = Some (Some url) /\
    s' = mkSt (with_payments d
                 (<[generated_id w :=
                      set_transactionId (new_tx_ref w)
                        (new_payment w amt vid bid uid client vendor)]>
                    (payments d)))
              200 (Some (InitiateJson url (generated_id w) (new_tx_ref w)))
              [ChapaInitialize (initialize_request w amt admin sub)].
Proof.
  intros Hrun.
  destruct (initiatePayment_cases w req d)
    as [(e & code & H)|(amt & vid & bid & uid & client & vendor & sub & admin & Hc)];
    [congruence|].
  rewrite (initiatePayment_checked w req d amt vid bid uid client vendor sub admin)
    in Hrun by done.
  destruct (payments d !! generated_id w) as [p0|] eqn:Hfresh.
  { rewrite (initiate_checkout_taken _ _ _ _ _ _ _ _ _ _ p0) in Hrun by done.
    discriminate. }
  rewrite initiate_checkout_run in Hrun by done. cbv zeta in Hrun.
  destruct (chapa_initialize w _) as [[url|]|] eqn:Hgw; try discriminate.
  injection Hrun as <-.
  exists amt, vid, bid, uid, client, vendor, sub, admin, url. done.
Qed.

Lemma find_unique {A} (f : A -> bool) (l : list A) (x : A) :
  x ∈ l -> f x = true -> (forall y, y ∈ l -> f y = true -> y = x) ->
  List.find f l = Some x.
Proof.
  induction l as [|a l IH]; intros Hin Hfx Huniq.
  - by apply elem_of_nil in Hin.
  - simpl. destruct (f a) eqn:Hfa.
    + f_equal. apply Huniq; [left|done].
    + apply IH; [|done|].
      * apply elem_of_cons in Hin as [->|Hin]; [congruence|done].
      * intros y Hy. apply Huniq. by right.
Qed.

(** A reference stored on one row only is found, and found on that row. *)
Lemma payment_findFirst_unique d tx id p :
  payments d !! id = Some p ->
  transactionId p = Some tx ->
  (forall id' p', payments d !! id' = Some p' -> transactionId p' = Some tx -> id' = id) ->
  payment_findFirst_by_transactionId d tx = Some (id, p).
Proof.
  intros Hp Htx Huniq. unfold payment_findFirst_by_transactionId.
  apply find_unique.
  - by apply elem_of_map_to_list.
  - simpl. by apply bool_decide_eq_true.
  - intros [id' p'] Hin Hf. apply elem_of_map_to_list in Hin. simpl in Hf.
    apply bool_decide_eq_true in Hf.
    assert (id' = id) as -> by eauto. congruence.
Qed.

Lemma new_tx_ref_present w : present (Some (new_tx_ref w)) = Some (new_tx_ref w).
Proof. reflexivity. Qed.

(** X1.  After a successful initiation whose transaction reference no
    earlier payment carries, a correctly signed webhook for that reference
    is answered 200 and leaves the payment that was just created with the
    mapped status; when that status is COMPLETED and the booking of the
    request was PENDING, the booking row has status CONFIRMED afterwards
    and its other columns are unchanged. *)
Theorem X1_initiate_then_webhook (w1 : World) (req : InitiateRequest) (d : DB)
    (s1 : St) (w2 : World) (wreq : WebhookRequest) (signature secret gs : string) :
  run (initiatePayment w1 req) d = (Ok tt, s1) ->
  (forall id p, payments d !! id = Some p -> transactionId p <> Some (new_tx_ref w1)) ->
  present (chapa_signature wreq) = Some signature ->
  present (CHAPA_WEBHOOK_SECRET w2) = Some secret ->
  createHmac_sha256_hex w2 secret (payload wreq) = signature ->
  wh_tx_ref wreq = Some (new_tx_ref w1) ->
  wh_status wreq = Some gs ->
  fst (run (handleWebhook w2 wreq) (db s1)) = Ok tt /\
  statusCode (snd (run (handleWebhook w2 wreq) (db s1))) = 200 /\
  status <$> payments (db (snd (run (handleWebhook w2 wreq) (db s1)))) !! generated_id w1
    = Some (handleWebhook_paymentStatus gs) /\
  (handleWebhook_paymentStatus gs = COMPLETED ->
   forall bid b,
     present (i_bookingId req) = Some bid ->
     bookings d !! bid = Some b -> b_status b = B_PENDING ->
     exists b',
       bookings (db (snd (run (handleWebhook w2 wreq) (db s1)))) !! bid = Some b' /\
       b_status b' = B_CONFIRMED /\
       b_clientId b' = b_clientId b /\ b_serviceId b' = b_serviceId b /\
       b_eventDate b' = b_eventDate b /\ b_location b' = b_location b).
Proof.
  intros Hrun Hnew Hsig Hsec Hh Htx Hgs.
  apply initiatePayment_success in Hrun
    as (amt & vid & bid0 & uid & client & vendor & sub & admin & url
        & Hc & Hfresh & Hgw & ->).
  set (row := set_transactionId (new_tx_ref w1)
                (new_payment w1 amt vid bid0 uid client vendor)).
  set (d1 := with_payments d (<[generated_id w1 := row]> (payments d))).
  assert (Hf : payment_findFirst_by_transactionId d1 (new_tx_ref w1)
               = Some (generated_id w1, row)).
  { apply payment_findFirst_unique.
    - apply lookup_insert_eq.
    - done.
    - intros id' p' Hp' Htx'. destruct (decide (id' = generated_id w1)); [done|].
      simpl in Hp'. rewrite lookup_insert_ne in Hp' by done.
      by destruct (Hnew id' p' Hp'). }
  cbn [db].
  rewrite (handleWebhook_run w2 wreq d1 signature secret (new_tx_ref w1)
             (generated_id w1) row gs); try done;
    [|by rewrite Htx].
  cbn [fst snd statusCode db]. split; [done|]. split; [done|]. split.
  - rewrite reconciled_payment. simpl. f_equal.
  - intros Hst bid b Hbid Hb Hpend.
    destruct Hc as (_ & _ & Hb0 & _). rewrite Hbid in Hb0. injection Hb0 as <-.
    unfold reconciled.
    assert (Hi : include_booking d1 row = Some (bid, b))
      by by apply include_booking_Some.
    rewrite Hi, Hst, Hpend. simpl. rewrite lookup_insert_eq.
    eexists. split; [reflexivity|]. repeat split.
Qed.

Lemma X1_initiate_then_webhook_witness :
  statusCode (snd (run (handleWebhook Scenario.world
       (Scenario.signed "{}" (Some "payment-p2-u2") (Some "success")))
     (db (snd (run (initiatePayment Scenario.world
        (mkInitiateRequest (Some 100%float) (Some "v1") (Some "b1") (Some "u1")))
        Scenario.market))))) = 200 /\
  status <$> payments (db (snd (run (handleWebhook Scenario.world
       (Scenario.signed "{}" (Some "payment-p2-u2") (Some "success")))
     (db (snd (run (initiatePayment Scenario.world
        (mkInitiateRequest (Some 100%float) (Some "v1") (Some "b1") (Some "u1")))
        Scenario.market)))))) !! "p2" = Some COMPLETED /\
  b_status <$> bookings Scenario.market !! "b1" = Some B_PENDING /\
  exists b',
    bookings (db (snd (run (handleWebhook Scenario.world
       (Scenario.signed "{}" (Some "payment-p2-u2") (Some "success")))
     (db (snd (run (initiatePayment Scenario.world
        (mkInitiateRequest (Some 100%float) (Some "v1") (Some "b1") (Some "u1")))
        Scenario.market)))))) !! "b1" = Some b' /\
    b_status b' = B_CONFIRMED /\ b_location b' = "Addis Ababa".
Proof.
  destruct (X1_initiate_then_webhook Scenario.world
      (mkInitiateRequest (Some 100%float) (Some "v1") (Some "b1") (Some "u1"))
      Scenario.market
      (snd (run (initiatePayment Scenario.world
        (mkInitiateRequest (Some 100%float) (Some "v1") (Some "b1") (Some "u1")))
        Scenario.market))
      Scenario.world
      (Scenario.signed "{}" (Some "payment-p2-u2") (Some "success"))
      "whsec:{}" "whsec" "success") as (_ & H1 & H2 & H3);
    try (vm_compute; reflexivity).
  - intros id p Hp.
    destruct (decide (id = "p1")) as [->|Hne].
    + vm_compute in Hp. injection Hp as <-. vm_compute. discriminate.
    + unfold Scenario.market in Hp. simpl in Hp.
      rewrite lookup_singleton_ne in Hp by done. discriminate.
  - split; [exact H1|]. split; [exact H2|]. split; [vm_compute; reflexivity|].
    destruct (H3 eq_refl "b1"
                (mkBooking "c1" "s1" 0 "Addis Ababa" B_PENDING)
                eq_refl) as (b' & Hb' & Hst & _ & _ & _ & Hloc);
      [vm_compute; reflexivity | reflexivity |].
    exists b'. split; [exact Hb'|]. split; [exact Hst|exact Hloc].
Defined.

(** X2.  The payment a successful initiation created belongs to the user
    who initiated it: a poll for it by anybody else is refused with 403 and
    writes nothing, and a poll by that user with any reference the gateway
    knows writes the mapped status on it. *)
Theorem X2_initiator_owns_payment (w1 : World) (req : InitiateRequest) (d : DB)
    (s1 : St) (w2 : World) (vreq : VerifyRequest) (uid tx : string) :
  run (initiatePayment w1 req) d = (Ok tt, s1) ->
  present (i_userId req) = Some uid ->
  present (v_paymentId vreq) = Some (generated_id w1) ->
  present (v_tx_ref vreq) = Some tx ->
  (v_user vreq <> uid ->
     run (verifyPayment w2 vreq) (db s1) =
     (Throw (Error "Unauthorized: Payment does not belong to this user"),
      mkSt (db s1) 403 None [])) /\
  (v_user vreq = uid ->
     forall r gs, chapa_verify w2 tx = Some r -> vr_status r = Some gs ->
     status <$> payments (db (snd (run (verifyPayment w2 vreq) (db s1))))
                  !! generated_id w1
       = Some (verifyPayment_paymentStatus gs)).
Proof.
  intros Hrun Huid Hid Htx.
  apply initiatePayment_success in Hrun
    as (amt & vid & bid0 & uid0 & client & vendor & sub & admin & url
        & Hc & Hfresh & Hgw & ->).
  destruct Hc as (_ & _ & _ & Hu0 & _). rewrite Huid in Hu0. injection Hu0 as <-.
  set (row := set_transactionId (new_tx_ref w1)
                (new_payment w1 amt vid bid0 uid client vendor)).
  set (d1 := with_payments d (<[generated_id w1 := row]> (payments d))).
  cbn [db].
  assert (Hrow : payments d1 !! generated_id w1 = Some row) by apply lookup_insert_eq.
  split.
  - intros Hne. unfold run, verifyPayment. rewrite Hid, Htx. unfold_M. simpl.
    rewrite lookup_insert_eq. simpl.
    assert (String.eqb uid (v_user vreq) = false) as ->
      by (apply String.eqb_neq; congruence).
    done.
  - intros Heq r gs Hr Hgs.
    destruct (verifyPayment_run w2 vreq d1 (generated_id w1) tx row r gs)
      as (res & code & body & ->); try done.
    cbn [snd db]. by rewrite reconciled_payment.
Qed.

Lemma X2_initiator_owns_payment_witness :
  run (verifyPayment Scenario.world
         (mkVerifyRequest (Some "p2") (Some "payment-p2-u2") "mallory"))
      (db (snd (run (initiatePayment Scenario.world
         (mkInitiateRequest (Some 100%float) (Some "v1") (Some "b1") (Some "u1")))
         Scenario.market))) =
  (Throw (Error "Unauthorized: Payment does not belong to this user"),
   mkSt (db (snd (run (initiatePayment Scenario.world
         (mkInitiateRequest (Some 100%float) (Some "v1") (Some "b1") (Some "u1")))
         Scenario.market))) 403 None []).
Proof.
  refine (proj1 (X2_initiator_owns_payment Scenario.world
      (mkInitiateRequest (Some 100%float) (Some "v1") (Some "b1") (Some "u1"))
      Scenario.market
      (snd (run (initiatePayment Scenario.world
        (mkInitiateRequest (Some 100%float) (Some "v1") (Some "b1") (Some "u1")))
        Scenario.market))
      Scenario.world
      (mkVerifyRequest (Some "p2") (Some "payment-p2-u2") "mallory")
      "u1" "payment-p2-u2" _ _ _ _) _);
    try (vm_compute; reflexivity).
  vm_compute. discriminate.
Defined.

(** ** Failures after the checks *)

(** X3.  When a poll has passed its checks and the gateway call is
    rejected, or its answer carries no status string, the poll ends in the
    error "Payment verification failed" with status 500; nothing is
    written, the gateway was asked once and no notifier was called. *)
Theorem X3_poll_gateway_failure (w : World) (req : VerifyRequest) (d : DB)
    (id tx : string) (p : Payment) :
  present (v_paymentId req) = Some id ->
  present (v_tx_ref req) = Some tx ->
  payments d !! id = Some p ->
  userId p = v_user req ->
  (chapa_verify w tx = None \/
   exists r, chapa_verify w tx = Some r /\ vr_status r = None) ->
  run (verifyPayment w req) d =
  (Throw (Error "Payment verification failed"), mkSt d 500 None [ChapaVerify tx]).
Proof.
  intros Hid Htx Hp Hu Hgw. unfold run, verifyPayment. rewrite Hid, Htx.
  unfold_M. simpl. rewrite Hp, Hu, String.eqb_refl. simpl.
  unfold verify_reconcile. unfold_M. simpl.
  destruct Hgw as [Hr|(r & Hr & Hgs)]; rewrite Hr; simpl; [done|].
  by rewrite Hgs.
Qed.

Lemma X3_poll_gateway_failure_witness :
  run (verifyPayment Scenario.world
         (mkVerifyRequest (Some "p1") (Some "unknown-reference") "u1"))
      Scenario.market =
  (Throw (Error "Payment verification failed"),
   mkSt Scenario.market 500 None [ChapaVerify "unknown-reference"]).
Proof.
  apply (X3_poll_gateway_failure Scenario.world
           (mkVerifyRequest (Some "p1") (Some "unknown-reference") "u1")
           Scenario.market "p1" "unknown-reference" Scenario.p1);
    try (vm_compute; reflexivity).
  left. vm_compute. reflexivity.
Defined.

Lemma handleWebhook_status_missing w req d signature secret tx id p :
  present (chapa_signature req) = Some signature ->
  present (CHAPA_WEBHOOK_SECRET w) = Some secret ->
  createHmac_sha256_hex w secret (payload req) = signature ->
  present (wh_tx_ref req) = Some tx ->
  payment_findFirst_by_transactionId d tx = Some (id, p) ->
  wh_status req = None ->
  run (handleWebhook w req) d =
  (Ok tt, mkSt d 500 (Some (Text "Webhook processing failed")) []).
Proof.
  intros Hsig Hsec Hh Htx Hf Hgs. unfold run, handleWebhook.
  rewrite Hsig, Hsec, Hh, String.eqb_refl.
  unfold webhook_reconcile. rewrite Htx. unfold_M. simpl. rewrite Hf. simpl.
  by rewrite Hgs.
Qed.

(** X4.  A correctly signed webhook that names a known transaction but
    carries no status string is answered 500 "Webhook processing failed";
    the payment found is not written and no notifier is called. *)
Theorem X4_webhook_without_status (w : World) (req : WebhookRequest) (d : DB)
    (signature secret tx id : string) (p : Payment) :
  present (chapa_signature req) = Some signature ->
  present (CHAPA_WEBHOOK_SECRET w) = Some secret ->
  createHmac_sha256_hex w secret (payload req) = signature ->
  present (wh_tx_ref req) = Some tx ->
  payment_findFirst_by_transactionId d tx = Some (id, p) ->
  wh_status req = None ->
  run (handleWebhook w req) d =
  (Ok tt, mkSt d 500 (Some (Text "Webhook processing failed")) []).
Proof. apply handleWebhook_status_missing. Qed.

Lemma X4_webhook_without_status_witness :
  run (handleWebhook Scenario.world (Scenario.signed "{}" (Some "payment-p1-u0") None))
      Scenario.market =
  (Ok tt, mkSt Scenario.market 500 (Some (Text "Webhook processing failed")) []).
Proof.
  apply (X4_webhook_without_status Scenario.world
           (Scenario.signed "{}" (Some "payment-p1-u0") None) Scenario.market
           "whsec:{}" "whsec" "payment-p1-u0" "p1" Scenario.p1);
    vm_compute; reflexivity.
Defined.

(** X5.  The webhook handler never throws: every call returns after
    sending a text body with status 200, 400, 401, 404 or 500, and a call
    answered 400, 401 or 404 has written nothing and called nobody. *)
Theorem X5_webhook_always_answers (w : World) (req : WebhookRequest) (d : DB) :
  exists body code,
    fst (run (handleWebhook w req) d) = Ok tt /\
    sent (snd (run (handleWebhook w req) d)) = Some (Text body) /\
    statusCode (snd (run (handleWebhook w req) d)) = code /\
    (code = 200 \/ code = 500 \/
     (code = 400 \/ code = 401 \/ code = 404) /\
     db (snd (run (handleWebhook w req) d)) = d /\
     outbound (snd (run (handleWebhook w req) d)) = []).
Proof.
  destruct (present (chapa_signature req)) as [sg|] eqn:Hsig;
    [|unfold run, handleWebhook; rewrite Hsig; simpl; eauto 12].
  destruct (present (CHAPA_WEBHOOK_SECRET w)) as [sec|] eqn:Hsec;
    [|unfold run, handleWebhook; rewrite Hsig, Hsec; simpl; eauto 12].
  destruct (String.eqb_spec (createHmac_sha256_hex w sec (payload req)) sg) as [Hh|Hh];
    [|unfold run, handleWebhook; rewrite Hsig, Hsec;
      apply String.eqb_neq in Hh; rewrite Hh; simpl; eauto 12].
  destruct (present (wh_tx_ref req)) as [tx|] eqn:Htx;
    [|unfold run, handleWebhook; rewrite Hsig, Hsec, Hh, String.eqb_refl;
      unfold webhook_reconcile; rewrite Htx; simpl; eauto 12].
  destruct (payment_findFirst_by_transactionId d tx) as [[id p]|] eqn:Hf;
    [|unfold run, handleWebhook; rewrite Hsig, Hsec, Hh, String.eqb_refl;
      unfold webhook_reconcile; rewrite Htx; unfold_M; simpl; rewrite Hf; simpl;
      eauto 12].
  destruct (wh_status req) as [gs|] eqn:Hgs.
  - rewrite (handleWebhook_run w req d sg sec tx id p gs) by done. simpl. eauto 12.
  - rewrite (handleWebhook_status_missing w req d sg sec tx id p) by done.
    simpl. eauto 12.
Qed.

(** ** What a poll ends with *)

Lemma verify_response_cases d id ps up data s :
  (exists bk,
     verify_response d id ps up data s =
     (Ok tt, mkSt (db s) 200
               (Some (VerifyJson id ps (amount up) (createdAt up) (updatedAt up)
                        bk data))
               (outbound s)) /\
     response_booking d up bk) \/
  verify_response d id ps up data s =
  (Throw TypeError, mkSt (db s) 200 (sent s) (outbound s)).
Proof.
  unfold verify_response. unfold_M. destruct s as [d0 c0 b0 o0]; simpl.
  destruct (include_booking d up) as [[bid b]|] eqn:Hb; simpl.
  - destruct (include_service d b) as [sv|]; simpl; [|by right].
    destruct (include_vendor d sv) as [v|]; simpl; [|by right].
    left. eexists. split; [done|]. simpl. rewrite Hb. eauto.
  - left. exists None. done.
Qed.

Lemma verify_reconcile_response w d id tx p r gs s :
  db s = d ->
  payments d !! id = Some p ->
  chapa_verify w tx = Some r ->
  vr_status r = Some gs ->
  exists s0,
    verify_reconcile w id tx (include_booking d p) s =
    verify_response (reconciled d id p (verifyPayment_paymentStatus gs) (now w)) id
      (verifyPayment_paymentStatus gs)
      (set_status_updatedAt (verifyPayment_paymentStatus gs) (now w) p)
      (vr_data r) s0 /\
    db s0 = reconciled d id p (verifyPayment_paymentStatus gs) (now w) /\
    sent s0 = sent s /\
    outbound s0 =
      (outbound s ++ ChapaVerify tx ::
         map Notify (reconcile_notified w d id p (verifyPayment_paymentStatus gs)))%list.
Proof.
  intros <- Hp Hr Hgs.
  unfold verify_reconcile, reconciled, reconcile_notified. unfold_M.
  destruct s as [d c0 b0 o0]; simpl in *.
  rewrite Hr. simpl. rewrite Hgs. simpl. rewrite Hp. simpl.
  set (st := verifyPayment_paymentStatus gs).
  set (p' := set_status_updatedAt st (now w) p).
  destruct (include_booking d p) as [[bid b]|] eqn:Hb.
  - apply include_booking_Some in Hb as Hb'. destruct Hb' as [Hbid Hbk].
    destruct (bool_decide (st = COMPLETED)) eqn:Hst; simpl.
    + destruct (bool_decide (b_status b = B_PENDING)) eqn:Hpend; simpl.
      * rewrite Hbk. simpl. rewrite lookup_insert_eq. simpl.
        assert (Hi : include_booking
                  (with_bookings (with_payments d (<[id:=p']> (payments d)))
                     (<[bid:=set_booking_status B_CONFIRMED b]> (bookings d))) p'
                = Some (bid, set_booking_status B_CONFIRMED b)).
        { apply include_booking_Some. simpl. by rewrite lookup_insert_eq. }
        rewrite Hi. rewrite send_notifications_run. simpl.
        eexists. split; [reflexivity|]. simpl. repeat split.
        rewrite <- app_assoc. simpl.
        by rewrite (notified_ext w d _ id bid b _).
      * rewrite lookup_insert_eq. simpl.
        assert (Hi : include_booking (with_payments d (<[id:=p']> (payments d))) p'
                = Some (bid, b)) by by apply include_booking_Some.
        rewrite Hi. rewrite send_notifications_run. simpl.
        eexists. split; [reflexivity|]. simpl. repeat split.
        rewrite <- app_assoc. simpl.
        by rewrite (notified_ext w d _ id bid b _).
    + simpl. rewrite lookup_insert_eq. simpl.
      assert (Hi : include_booking (with_payments d (<[id:=p']> (payments d))) p'
                = Some (bid, b)) by by apply include_booking_Some.
      rewrite Hi.
      eexists. split; [reflexivity|]. simpl. repeat split.
  - simpl. rewrite lookup_insert_eq. simpl.
    assert (Hi : include_booking (with_payments d (<[id:=p']> (payments d))) p' = None).
    { unfold include_booking in *. simpl.
      destruct (bookingId p) as [x|]; [|done]. destruct (bookings d !! x); done. }
    rewrite Hi.
    eexists. split; [reflexivity|]. simpl. repeat split.
Qed.

(** Every way a poll can end. *)
Lemma verifyPayment_outcome w req d :
  (exists msg code,
     (code = 400 \/ code = 403 \/ code = 404) /\
     run (verifyPayment w req) d = (Throw (Error msg), mkSt d code None [])) \/
  (exists tx,
     run (verifyPayment w req) d =
     (Throw (Error "Payment verification failed"), mkSt d 500 None [ChapaVerify tx])) \/
  (exists id tx p r gs,
     present (v_paymentId req) = Some id /\ present (v_tx_ref req) = Some tx /\
     payments d !! id = Some p /\ userId p = v_user req /\
     chapa_verify w tx = Some r /\ vr_status r = Some gs /\
     ((exists bk,
         run (verifyPayment w req) d =
         (Ok tt,
          mkSt (reconciled d id p (verifyPayment_paymentStatus gs) (now w)) 200
            (Some (VerifyJson id (verifyPayment_paymentStatus gs) (amount p)
                     (createdAt p) (now w) bk (vr_data r)))
            (ChapaVerify tx ::
               map Notify
                 (reconcile_notified w d id p (verifyPayment_paymentStatus gs)))) /\
         response_booking (reconciled d id p (verifyPayment_paymentStatus gs) (now w))
           (set_status_updatedAt (verifyPayment_paymentStatus gs) (now w) p) bk) \/
      run (verifyPayment w req) d =
      (Throw (Error "Payment verification failed"),
       mkSt (reconciled d id p (verifyPayment_paymentStatus gs) (now w)) 500 None
         (ChapaVerify tx ::
            map Notify
              (reconcile_notified w d id p (verifyPayment_paymentStatus gs)))))).
Proof.
  destruct (present (v_paymentId req)) as [id|] eqn:Hid;
    [|left; unfold run, verifyPayment; rewrite Hid; simpl; eauto 8].
  destruct (present (v_tx_ref req)) as [tx|] eqn:Htx;
    [|left; unfold run, verifyPayment; rewrite Hid, Htx; simpl; eauto 8].
  destruct (payments d !! id) as [p|] eqn:Hp;
    [|left; unfold run, verifyPayment; rewrite Hid, Htx; unfold_M; simpl;
      rewrite Hp; simpl; eauto 8].
  destruct (String.eqb_spec (userId p) (v_user req)) as [Hu|Hu];
    [|left; unfold run, verifyPayment; rewrite Hid, Htx; unfold_M; simpl; rewrite Hp;
      apply String.eqb_neq in Hu; rewrite Hu; simpl; eauto 8].
  right.
  assert (Hfail :
    chapa_verify w tx = None \/
    (exists r, chapa_verify w tx = Some r /\ vr_status r = None) ->
    run (verifyPayment w req) d =
    (Throw (Error "Payment verification failed"), mkSt d 500 None [ChapaVerify tx])).
  { intros Hgw. unfold run, verifyPayment. rewrite Hid, Htx.
    unfold_M. simpl. rewrite Hp, Hu, String.eqb_refl. simpl.
    unfold verify_reconcile. unfold_M. simpl.
    destruct Hgw as [Hr|(r & Hr & Hgs)]; rewrite Hr; simpl; [done|].
    by rewrite Hgs. }
  destruct (chapa_verify w tx) as [r|] eqn:Hr;
    [|left; exists tx; apply Hfail; by left].
  destruct (vr_status r) as [gs|] eqn:Hgs;
    [|left; exists tx; apply Hfail; right; by exists r].
  right. exists id, tx, p, r, gs. repeat (split; [done|]).
  unfold run, verifyPayment. rewrite Hid, Htx. unfold_M. simpl.
  rewrite Hp, Hu, String.eqb_refl. simpl.
  destruct (verify_reconcile_response w d id tx p r gs (fresh d))
    as (s0 & -> & Hdb & Hsent & Hout); [done..|].
  destruct s0 as [d0 c0 b0 o0]. simpl in Hdb, Hsent, Hout. subst d0 b0 o0.
  destruct (verify_response_cases
              (reconciled d id p (verifyPayment_paymentStatus gs) (now w)) id
              (verifyPayment_paymentStatus gs)
              (set_status_updatedAt (verifyPayment_paymentStatus gs) (now w) p)
              (vr_data r)
              (mkSt (reconciled d id p (verifyPayment_paymentStatus gs) (now w)) c0
                 None
                 (ChapaVerify tx ::
                    map Notify
                      (reconcile_notified w d id p (verifyPayment_paymentStatus gs)))))
    as [(bk & -> & Hbk)| ->]; simpl.
  - left. exists bk. done.
  - by right.
Qed.

(** X6.  A poll either returns after sending a JSON body with status 200,
    or throws an error without having sent anything; when the status is
    400, 403 or 404 nothing was written and neither the gateway nor the
    notifier was called, and the only other status is 500. *)
Theorem X6_poll_outcomes (w : World) (req : VerifyRequest) (d : DB) :
  (fst (run (verifyPayment w req) d) = Ok tt /\
   statusCode (snd (run (verifyPayment w req) d)) = 200 /\
   is_Some (sent (snd (run (verifyPayment w req) d)))) \/
  (exists msg,
     fst (run (verifyPayment w req) d) = Throw (Error msg) /\
     sent (snd (run (verifyPayment w req) d)) = None /\
     (((statusCode (snd (run (verifyPayment w req) d)) = 400 \/
        statusCode (snd (run (verifyPayment w req) d)) = 403 \/
        statusCode (snd (run (verifyPayment w req) d)) = 404) /\
       db (snd (run (verifyPayment w req) d)) = d /\
       outbound (snd (run (verifyPayment w req) d)) = []) \/
      statusCode (snd (run (verifyPayment w req) d)) = 500)).
Proof.
  destruct (verifyPayment_outcome w req d)
    as [(msg & code & Hcode & ->)|[(tx & ->)|
        (id & tx & p & r & gs & _ & _ & _ & _ & _ & _ & [(bk & -> & _)| ->])]];
    simpl.
  - right. exists msg. split; [done|]. split; [done|]. by left.
  - right. eexists. split; [done|]. split; [done|]. by right.
  - left. split; [done|]. split; [done|]. eauto.
  - right. eexists. split; [done|]. split; [done|]. by right.
Qed.

(** X9.  When a poll returns, the JSON it sent agrees with the database it
    leaves: the status, amount and timestamps are those of the payment row,
    [updatedAt] is the time of the call, and the booking part carries the
    status of the booking row after the confirmation step. *)
Theorem X9_poll_response_consistent (w : World) (req : VerifyRequest) (d : DB)
    (s' : St) :
  run (verifyPayment w req) d = (Ok tt, s') ->
  exists id st amt c u bk data p',
    sent s' = Some (VerifyJson id st amt c u bk data) /\
    present (v_paymentId req) = Some id /\
    payments (db s') !! id = Some p' /\
    status p' = st /\ amount p' = amt /\ createdAt p' = c /\
    updatedAt p' = u /\ u = now w /\
    match bk with
    | None => include_booking (db s') p' = None
    | Some (bid, bst, ev, _, _) =>
        bookingId p' = Some bid /\
        b_status <$> bookings (db s') !! bid = Some bst /\
        b_eventDate <$> bookings (db s') !! bid = Some ev
    end.
Proof.
  intros Hrun.
  destruct (verifyPayment_outcome w req d)
    as [(msg & code & Hcode & H)|[(tx & H)|
        (id & tx & p & r & gs & Hid & _ & _ & _ & _ & _ & [(bk & H & Hbk)|H])]];
    rewrite H in Hrun; try discriminate.
  injection Hrun as <-. cbn [sent db].
  eexists id, _, _, _, _, bk, _, _. split; [reflexivity|]. split; [done|].
  split; [apply reconciled_payment|]. repeat (split; [reflexivity|]).
  unfold response_booking in Hbk.
  destruct bk as [[[[[bid bst] ev] sn] vn]|]; [|done].
  destruct Hbk as (b & Hb & -> & ->).
  apply include_booking_Some in Hb as [Hbid Hb]. by rewrite Hb.
Qed.

Lemma X9_poll_response_consistent_witness :
  exists id st amt c u bk data p',
    sent (snd (run (verifyPayment Scenario.world_paid
                      (mkVerifyRequest (Some "p1") (Some "payment-p1-u0") "u1"))
                 Scenario.market))
      = Some (VerifyJson id st amt c u bk data) /\
    present (Some "p1") = Some id /\
    payments (db (snd (run (verifyPayment Scenario.world_paid
                      (mkVerifyRequest (Some "p1") (Some "payment-p1-u0") "u1"))
                 Scenario.market))) !! id = Some p' /\
    status p' = st /\ amount p' = amt /\ createdAt p' = c /\
    updatedAt p' = u /\ u = 5 /\
    match bk with
    | None => include_booking (db (snd (run (verifyPayment Scenario.world_paid
                      (mkVerifyRequest (Some "p1") (Some "payment-p1-u0") "u1"))
                 Scenario.market))) p' = None
    | Some (bid, bst, ev, _, _) =>
        bookingId p' = Some bid /\
        b_status <$> bookings (db (snd (run (verifyPayment Scenario.world_paid
                      (mkVerifyRequest (Some "p1") (Some "payment-p1-u0") "u1"))
                 Scenario.market))) !! bid = Some bst /\
        b_eventDate <$> bookings (db (snd (run (verifyPayment Scenario.world_paid
                      (mkVerifyRequest (Some "p1") (Some "payment-p1-u0") "u1"))
                 Scenario.market))) !! bid = Some ev
    end.
Proof.
  apply (X9_poll_response_consistent Scenario.world_paid
           (mkVerifyRequest (Some "p1") (Some "payment-p1-u0") "u1") Scenario.market).
  vm_compute. reflexivity.
Defined.

(** ** What the handlers leave alone *)

Lemma reconciled_tables d id p st t :
  clients (reconciled d id p st t) = clients d /\
  services (reconciled d id p st t) = services d /\
  vendors (reconciled d id p st t) = vendors d /\
  chapaSubaccounts (reconciled d id p st t) = chapaSubaccounts d.
Proof.
  unfold reconciled.
  destruct (include_booking d p) as [[bid b]|]; [destruct (_ && _)|]; done.
Qed.

Lemma reconciled_dom d id p st t :
  payments d !! id = Some p ->
  dom (payments (reconciled d id p st t)) = dom (payments d) /\
  dom (bookings (reconciled d id p st t)) = dom (bookings d).
Proof.
  intros Hp. unfold reconciled.
  destruct (include_booking d p) as [[bid b]|] eqn:Hb; simpl.
  - apply include_booking_Some in Hb as [_ Hb].
    destruct (_ && _); simpl; rewrite ?dom_insert_lookup_L; eauto.
  - rewrite dom_insert_lookup_L; eauto.
Qed.

(** X7.  A poll or a webhook never creates or deletes a payment or a
    booking row, changes at most one payment row, and never changes a
    client, a service, a vendor or a payout subaccount. *)
Theorem X7_reconcile_frame (w : World) (c : ReconciliationCall) (d : DB) :
  clients (db (snd (run (reconcile w c) d))) = clients d /\
  services (db (snd (run (reconcile w c) d))) = services d /\
  vendors (db (snd (run (reconcile w c) d))) = vendors d /\
  chapaSubaccounts (db (snd (run (reconcile w c) d))) = chapaSubaccounts d /\
  dom (payments (db (snd (run (reconcile w c) d)))) = dom (payments d) /\
  dom (bookings (db (snd (run (reconcile w c) d)))) = dom (bookings d) /\
  exists id, forall id', id' <> id ->
    payments (db (snd (run (reconcile w c) d))) !! id' = payments d !! id'.
Proof.
  destruct (reconcile_db w c d) as [->|(id & p & st & Hp & ->)].
  - repeat (split; [done|]). by exists EmptyString.
  - destruct (reconciled_tables d id p st (now w)) as (-> & -> & -> & ->).
    destruct (reconciled_dom d id p st (now w) Hp) as (-> & ->).
    repeat (split; [done|]). exists id. intros id' Hne.
    by apply reconciled_other_payment.
Qed.

(** Every way an initiation can end. *)
Lemma initiatePayment_outcome w req d :
  (exists e code, run (initiatePayment w req) d = (Throw e, mkSt d code None [])) \/
  (exists amt vid bid uid client vendor sub admin res code body row,
     checks_pass d req amt vid bid uid client vendor sub admin /\
     payments d !! generated_id w = None /\
     run (initiatePayment w req) d =
     (res, mkSt (with_payments d (<[generated_id w := row]> (payments d))) code body
            [ChapaInitialize (initialize_request w amt admin sub)])).
Proof.
  destruct (initiatePayment_cases w req d)
    as [H|(amt & vid & bid & uid & client & vendor & sub & admin & Hc)];
    [by left|].
  rewrite (initiatePayment_checked w req d amt vid bid uid client vendor sub admin)
    by done.
  destruct (payments d !! generated_id w) as [p0|] eqn:Hfresh.
  { left. rewrite (initiate_checkout_taken _ _ _ _ _ _ _ _ _ _ p0) by done.
    unfold fresh. eauto. }
  right. exists amt, vid, bid, uid, client, vendor, sub, admin.
  rewrite initiate_checkout_run by done. cbv zeta.
  destruct (chapa_initialize w _) as [[url|]|]; simpl; eauto 10.
Qed.

(** X8.  Payment initiation never changes or removes an existing payment
    row and adds at most the row of the generated key; it never changes a
    client, a service, a vendor or a payout subaccount. *)
Theorem X8_initiate_frame (w : World) (req : InitiateRequest) (d : DB) :
  clients (db (snd (run (initiatePayment w req) d))) = clients d /\
  services (db (snd (run (initiatePayment w req) d))) = services d /\
  vendors (db (snd (run (initiatePayment w req) d))) = vendors d /\
  chapaSubaccounts (db (snd (run (initiatePayment w req) d))) = chapaSubaccounts d /\
  (forall id p, payments d !! id = Some p ->
     payments (db (snd (run (initiatePayment w req) d))) !! id = Some p) /\
  (forall id, is_Some (payments (db (snd (run (initiatePayment w req) d))) !! id) ->
     is_Some (payments d !! id) \/ id = generated_id w).
Proof.
  destruct (initiatePayment_outcome w req d)
    as [(e & code & ->)|
        (amt & vid & bid & uid & client & vendor & sub & admin & res & code & body
         & row & _ & Hfresh & ->)]; simpl.
  - do 4 (split; [done|]). split; [done|]. intros id H. by left.
  - do 4 (split; [done|]). split.
    + intros id p Hp. rewrite lookup_insert_ne; [done|]. intros <-. congruence.
    + intros id H. destruct (decide (id = generated_id w)) as [->|Hne]; [by right|].
      left. by rewrite lookup_insert_ne in H.
Qed.

(** X10.  Payment initiation calls the gateway at most once and never
    calls the notifier.  It calls the gateway only after the payment row
    has been created: when the generated key is already taken, so that the
    creation fails, the gateway is not called; and after a gateway call the
    row is in the table whatever the gateway answered.  The request carries
    the requested amount and the new transaction reference, and the shares
    of the two subaccounts are 10 and 90. *)
Theorem X10_initiate_gateway_call (w : World) (req : InitiateRequest) (d : DB) :
  (is_Some (payments d !! generated_id w) ->
   outbound (snd (run (initiatePayment w req) d)) = [] /\
   db (snd (run (initiatePayment w req) d)) = d) /\
  (outbound (snd (run (initiatePayment w req) d)) = [] \/
   exists r,
     outbound (snd (run (initiatePayment w req) d)) = [ChapaInitialize r] /\
     ir_tx_ref r = new_tx_ref w /\
     ir_admin_share r = 10 /\ ir_vendor_share r = 90 /\
     present_number (i_amount req) = Some (ir_amount r) /\
     payments d !! generated_id w = None /\
     exists p,
       payments (db (snd (run (initiatePayment w req) d))) !! generated_id w = Some p /\
       amount p = ir_amount r /\
       (status p = PENDING \/ status p = FAILED)).
Proof.
  split.
  - intros [p0 Htaken].
    destruct (initiatePayment_cases w req d)
      as [(e & code & ->)|(amt & vid & bid & uid & client & vendor & sub & admin & Hc)];
      [done|].
    rewrite (initiatePayment_checked w req d amt vid bid uid client vendor sub admin)
      by done.
    by rewrite (initiate_checkout_taken _ _ _ _ _ _ _ _ _ _ p0).
  - destruct (initiatePayment_cases w req d)
      as [(e & code & ->)|(amt & vid & bid & uid & client & vendor & sub & admin & Hc)];
      [by left|].
    rewrite (initiatePayment_checked w req d amt vid bid uid client vendor sub admin)
      by done.
    destruct (payments d !! generated_id w) as [p0|] eqn:Hfresh.
    { left. by rewrite (initiate_checkout_taken _ _ _ _ _ _ _ _ _ _ p0). }
    right. rewrite initiate_checkout_run by done. cbv zeta.
    destruct Hc as (Ha & _).
    destruct (chapa_initialize w _) as [[url|]|];
      cbn [snd outbound db fresh payments with_payments];
      (eexists; split; [reflexivity|]; do 5 (split; [done|]);
       rewrite lookup_insert_eq; eexists; split; [reflexivity|];
       split; [reflexivity|]; (by left) || (by right)).
Qed.

(** * The listing of payments *)

Lemma insert_createdAt_desc_perm x l : insert_createdAt_desc x l ≡ₚ x :: l.
Proof.
  induction l as [|y r IH]; simpl; [done|].
  destruct (createdAt (snd y) <=? createdAt (snd x)); [done|].
  rewrite IH. apply Permutation_swap.
Qed.

Lemma orderBy_createdAt_desc_perm l : orderBy_createdAt_desc l ≡ₚ l.
Proof.
  induction l as [|x l IH]; simpl; [done|].
  rewrite insert_createdAt_desc_perm. by rewrite IH.
Qed.

Lemma insert_createdAt_desc_sorted x l :
  StronglySorted newer_first l ->
  StronglySorted newer_first (insert_createdAt_desc x l).
Proof.
  induction 1 as [|y r Hr IH Hy]; simpl.
  - repeat constructor.
  - destruct (Z.leb_spec (createdAt (snd y)) (createdAt (snd x))) as [Hle|Hlt].
    + constructor; [by constructor|]. constructor; [done|].
      eapply Forall_impl; [exact Hy|]. unfold newer_first. intros z Hz. lia.
    + constructor; [done|].
      rewrite insert_createdAt_desc_perm. constructor; [|done].
      unfold newer_first. lia.
Qed.

Lemma orderBy_createdAt_desc_sorted l :
  StronglySorted newer_first (orderBy_createdAt_desc l).
Proof.
  induction l as [|x l IH]; simpl; [constructor|].
  by apply insert_createdAt_desc_sorted.
Qed.

Lemma page_rows_sorted d uid f page limit :
  StronglySorted newer_first (page_rows d uid f page limit).
Proof.
  unfold page_rows.
  set (l := orderBy_createdAt_desc (payment_where d uid f)).
  assert (Hl : StronglySorted newer_first l) by apply orderBy_createdAt_desc_sorted.
  rewrite <- (take_drop (Z.to_nat ((page - 1) * limit)) l) in Hl.
  apply StronglySorted_app_1_r in Hl.
  set (k := drop (Z.to_nat ((page - 1) * limit)) l) in *.
  rewrite <- (take_drop (Z.to_nat limit) k) in Hl.
  by apply StronglySorted_app_1_l in Hl.
Qed.

Lemma payment_where_spec d uid f id p :
  (id, p) ∈ payment_where d uid f <->
  payments d !! id = Some p /\ userId p = uid /\
  (forall st, f = Some st -> status p = st).
Proof.
  unfold payment_where. rewrite list_elem_of_In, filter_In, <- list_elem_of_In.
  rewrite elem_of_map_to_list. unfold where_matches. simpl.
  rewrite andb_true_iff, String.eqb_eq.
  destruct f as [st|].
  - rewrite bool_decide_eq_true. split.
    + intros (Hp & Hu & Hst). repeat split; [done..|]. by intros ? [= <-].
    + intros (Hp & Hu & Hst). repeat split; [done..|]. by apply Hst.
  - split; intros (Hp & Hu & _); repeat split; done.
Qed.

Lemma page_rows_elem d uid f page limit id p :
  (id, p) ∈ page_rows d uid f page limit ->
  payments d !! id = Some p /\ userId p = uid /\
  (forall st, f = Some st -> status p = st).
Proof.
  intros Hin. apply (payment_where_spec d uid f id p). unfold page_rows in Hin.
  apply subseteq_take, subseteq_drop in Hin.
  by rewrite orderBy_createdAt_desc_perm in Hin.
Qed.

Lemma format_payment_shows d kp it :
  format_payment d kp = Some it -> shows it (fst kp) (snd kp).
Proof.
  unfold format_payment, shows.
  destruct (include_booking d (snd kp)) as [[bid b]|].
  - destruct (include_service d b) as [sv|]; [|done].
    destruct (include_vendor d sv) as [[vid v]|]; [|done].
    by intros [= <-].
  - by intros [= <-].
Qed.

Lemma format_payments_Forall2 d rows items :
  format_payments d rows = Some items ->
  Forall2 (fun kp it => shows it (fst kp) (snd kp)) rows items.
Proof.
  revert items. induction rows as [|kp r IH]; intros items; simpl.
  - intros [= <-]. constructor.
  - destruct (format_payment d kp) as [it|] eqn:Hit; [|done].
    destruct (format_payments d r) as [its|]; [|done].
    intros [= <-]. constructor; [by apply (format_payment_shows d)|by apply IH].
Qed.

(** A regular request is answered from [page_rows]. *)
Lemma regular_page_regular rt req page limit :
  regular rt req page limit ->
  regular_page (pageNum rt req) (limitNum rt req) = Some ((page - 1) * limit, limit).
Proof.
  intros (Hp & Hl & Hpage & [Hl0 Hl1] & Hskip). rewrite Hp, Hl. unfold regular_page.
  assert ((1 <=? page) = true) as -> by by apply Z.leb_le.
  assert ((0 <=? limit) = true) as -> by by apply Z.leb_le.
  assert ((limit <=? max_int32) = true) as -> by by apply Z.leb_le.
  assert (((page - 1) * limit <=? max_int32) = true) as -> by by apply Z.leb_le.
  done.
Qed.

Lemma getPayments_regular rt req d page limit :
  regular rt req page limit ->
  getPayments rt req d =
  match clients d !! l_user req with
  | None => ListFailed 400 (Error "Client profile not found")
  | Some _ =>
      match format_payments d
              (page_rows d (l_user req) (status_filter req) page limit) with
      | None => ListFailed 200 TypeError
      | Some items =>
          Listed 200 items
            (mkPagination (payment_count d (l_user req) (status_filter req))
               (Num page) (Num limit)
               (pages_of (payment_count d (l_user req) (status_filter req))
                  (Num limit)))
      end
  end.
Proof.
  intros Hreg. unfold getPayments, payment_findMany, page_rows.
  rewrite (regular_page_regular rt req page limit Hreg).
  destruct Hreg as (-> & -> & _). done.
Qed.

Lemma getPayments_listed rt req d page limit code items pg :
  regular rt req page limit ->
  getPayments rt req d = Listed code items pg ->
  format_payments d (page_rows d (l_user req) (status_filter req) page limit)
    = Some items /\
  code = 200 /\
  pg = mkPagination (payment_count d (l_user req) (status_filter req))
         (Num page) (Num limit)
         (pages_of (payment_count d (l_user req) (status_filter req)) (Num limit)).
Proof.
  intros Hreg.
  rewrite (getPayments_regular rt req d page limit) by done.
  destruct (clients d !! l_user req); [|done].
  destruct (format_payments d _) as [its|]; [|done].
  by intros [= <- <- <-].
Qed.

(** X11.  Every payment of a regular page of the listing is a payment of
    the caller: the item shows, field by field, a row of the payments
    table whose [userId] is the caller's.  A page is regular when
    [parseInt] finds in [page] an integer of at least 1 and in [limit] an
    integer from 0 to 2147483647, and the rows to skip are no more than
    2147483647. *)
Theorem X11_listing_isolated (rt : Runtime) (req : ListRequest) (d : DB)
    (page limit code : Z) (items : list PaymentItem) (pg : Pagination) :
  regular rt req page limit ->
  getPayments rt req d = Listed code items pg ->
  Forall (fun it => exists p, payments d !! it_id it = Some p /\
                              userId p = l_user req /\ shows it (it_id it) p) items.
Proof.
  intros Hreg Hget.
  destruct (getPayments_listed rt req d page limit code items pg)
    as (Hfmt & _ & _); [done..|].
  apply format_payments_Forall2 in Hfmt.
  assert (Hrows : Forall (fun kp => payments d !! fst kp = Some (snd kp) /\
                                   userId (snd kp) = l_user req)
                    (page_rows d (l_user req) (status_filter req) page limit)).
  { apply Forall_forall. intros [id p] Hin.
    apply page_rows_elem in Hin as (H1 & H2 & _). done. }
  clear Hget. revert Hrows.
  induction Hfmt as [|kp it rows its Hshow _ IH]; intros Hrows; [constructor|].
  apply Forall_cons in Hrows as [[Hrow Hu] Hrows].
  constructor; [|by apply IH].
  exists (snd kp). destruct Hshow as (Hid & Hrest).
  rewrite Hid. split; [done|]. split; [done|]. split; [done|]. exact Hrest.
Qed.

Lemma X11_listing_isolated_witness :
  Forall (fun it => exists p, payments Ledger.ledger !! it_id it = Some p /\
                              userId p = "u1" /\ shows it (it_id it) p)
    [mkPaymentItem "a5" 100 COMPLETED "CHAPA" None 50 50 None;
     mkPaymentItem "a4" 100 FAILED "CHAPA" None 40 40 None].
Proof.
  apply (X11_listing_isolated Ledger.strict (Ledger.page_of "1" "2" None)
           Ledger.ledger 1 2 200 _
           (mkPagination 5 (Num 1) (Num 2) (Num 3)));
    [unfold regular, max_int32; repeat split; (reflexivity || lia)
    | vm_compute; reflexivity].
Defined.

(** X12.  When the [status] parameter is one of the four names of the
    enumeration, every payment listed on a regular page (as in X11) has
    that status; a [status] parameter that is any other string (for
    instance the name in lower case) is ignored on every page, regular or
    not: the answer is that of the same request without the parameter. *)
Theorem X12_status_filter (rt : Runtime) (d : DB) :
  (forall req st page limit code items pg,
     status_filter req = Some st ->
     regular rt req page limit ->
     getPayments rt req d = Listed code items pg ->
     Forall (fun it => it_status it = st) items) /\
  (forall req s,
     l_status req = Some s ->
     s <> "PENDING" -> s <> "COMPLETED" -> s <> "FAILED" -> s <> "REFUNDED" ->
     getPayments rt req d = getPayments rt (without_status req) d).
Proof.
  split.
  - intros req st page limit code items pg Hf Hreg Hget.
    destruct (getPayments_listed rt req d page limit code items pg)
      as (Hfmt & _ & _); [done..|].
    apply format_payments_Forall2 in Hfmt.
    assert (Hrows : Forall (fun kp => status (snd kp) = st)
                      (page_rows d (l_user req) (status_filter req) page limit)).
    { apply Forall_forall. intros [id p] Hin.
      apply page_rows_elem in Hin as (_ & _ & H3). by apply H3. }
    clear Hget. revert Hrows.
    induction Hfmt as [|kp it rows its Hshow _ IH]; intros Hrows; [constructor|].
    apply Forall_cons in Hrows as [Hrow Hrows].
    constructor; [|by apply IH].
    destruct Hshow as (_ & _ & Hst & _). congruence.
  - intros req s Hs H1 H2 H3 H4.
    assert (Hnone : status_filter req = None).
    { unfold status_filter. rewrite Hs. unfold present.
      destruct (String.eqb s EmptyString); [done|].
      apply String.eqb_neq in H1, H2, H3, H4. by rewrite H1, H2, H3, H4. }
    unfold getPayments, payment_findMany. rewrite Hnone. done.
Qed.

Lemma X12_status_filter_witness :
  getPayments Ledger.strict (Ledger.page_of "1" "10" (Some "completed")) Ledger.ledger
  = getPayments Ledger.strict
      (without_status (Ledger.page_of "1" "10" (Some "completed"))) Ledger.ledger.
Proof.
  apply (proj2 (X12_status_filter Ledger.strict Ledger.ledger)
           (Ledger.page_of "1" "10" (Some "completed")) "completed");
    [reflexivity | discriminate..].
Defined.

Lemma format_payments_length d rows items :
  format_payments d rows = Some items -> length items = length rows.
Proof.
  intros H. apply format_payments_Forall2, Forall2_length in H. done.
Qed.

Lemma pages_of_bounds total limit n :
  0 < limit -> pages_of total (Num limit) = Num n ->
  total < 2 ^ 53 /\ (n - 1) * limit < total <= n * limit.
Proof.
  intros Hl. unfold pages_of.
  assert ((limit =? 0) = false) as -> by (apply Z.eqb_neq; lia).
  destruct (Z.ltb_spec total (2 ^ 53)) as [Hlt|Hge]; [|done].
  intros [= <-]. split; [done|].
  pose proof (Z.mul_div_le (- total) limit Hl).
  pose proof (Z.mul_succ_div_gt (- total) limit Hl). nia.
Qed.

Lemma pages_of_small total limit :
  0 < limit -> total < 2 ^ 53 ->
  pages_of total (Num limit) = Num (- ((- total) / limit)).
Proof.
  intros Hl Ht. unfold pages_of.
  assert ((limit =? 0) = false) as -> by (apply Z.eqb_neq; lia).
  by assert ((total <? 2 ^ 53) = true) as -> by by apply Z.ltb_lt.
Qed.

(** X13.  A regular page (as in X11) holds exactly [limit] payments, or
    what is left after the pages before it when that is less, and none
    when the page lies beyond the last; [total] counts the caller's
    matching payments whatever the page, [page] and [limit] are echoed,
    and for a positive limit and a total below 2^53 [pages] is the least
    number of pages that hold them all. *)
Theorem X13_page_size (rt : Runtime) (req : ListRequest) (d : DB)
    (page limit code : Z) (items : list PaymentItem) (pg : Pagination) :
  regular rt req page limit ->
  getPayments rt req d = Listed code items pg ->
  Z.of_nat (length items) = Z.min limit (Z.max 0 (pg_total pg - (page - 1) * limit)) /\
  pg_total pg = Z.of_nat (length (payment_where d (l_user req) (status_filter req))) /\
  pg_page pg = Num page /\ pg_limit pg = Num limit /\
  (0 < limit -> pg_total pg < 2 ^ 53 ->
   exists n, pg_pages pg = Num n /\
             (n - 1) * limit < pg_total pg <= n * limit).
Proof.
  intros Hreg Hget.
  destruct (getPayments_listed rt req d page limit code items pg)
    as (Hfmt & _ & ->); [done..|].
  destruct Hreg as (_ & _ & Hpage & Hlimit & _).
  cbn [pg_total pg_page pg_limit pg_pages].
  apply format_payments_length in Hfmt. rewrite Hfmt.
  unfold page_rows, payment_count.
  rewrite length_take, length_drop.
  assert (Hperm : length (orderBy_createdAt_desc
                            (payment_where d (l_user req) (status_filter req)))
                  = length (payment_where d (l_user req) (status_filter req)))
    by by rewrite orderBy_createdAt_desc_perm.
  rewrite Hperm.
  split; [nia|]. split; [done|]. split; [done|]. split; [done|].
  intros Hpos Hsmall. rewrite pages_of_small by done.
  eexists. split; [done|].
  eapply pages_of_bounds; [done|]. by apply pages_of_small.
Qed.

Lemma X13_page_size_witness :
  Z.of_nat (length [mkPaymentItem "a1" 100 COMPLETED "CHAPA" None 10 10 None])
    = Z.min 2 (Z.max 0 (5 - (3 - 1) * 2)) /\
  5 = Z.of_nat (length (payment_where Ledger.ledger "u1" None)) /\
  Num 3 = Num 3 /\ Num 2 = Num 2 /\
  (0 < 2 -> 5 < 2 ^ 53 -> exists n, Num 3 = Num n /\ (n - 1) * 2 < 5 <= n * 2).
Proof.
  apply (X13_page_size Ledger.strict (Ledger.page_of "3" "2" None)
           Ledger.ledger 3 2 200
           [mkPaymentItem "a1" 100 COMPLETED "CHAPA" None 10 10 None]
           (mkPagination 5 (Num 3) (Num 2) (Num 3)));
    [unfold regular, max_int32; repeat split; (reflexivity || lia)
    | vm_compute; reflexivity].
Defined.

(** X14.  The payments of a regular page (as in X11) come newest first: no
    item is followed, anywhere later on the page, by one with a greater
    [createdAt]. *)
Theorem X14_newest_first (rt : Runtime) (req : ListRequest) (d : DB)
    (page limit code : Z) (items : list PaymentItem) (pg : Pagination) :
  regular rt req page limit ->
  getPayments rt req d = Listed code items pg ->
  StronglySorted (fun a b => it_createdAt b <= it_createdAt a) items.
Proof.
  intros Hreg Hget.
  destruct (getPayments_listed rt req d page limit code items pg)
    as (Hfmt & _ & _); [done..|].
  apply format_payments_Forall2 in Hfmt.
  pose proof (page_rows_sorted d (l_user req) (status_filter req) page limit) as Hs.
  clear Hget. revert Hs.
  induction Hfmt as [|kp it rows its Hshow Hrest IH]; intros Hs; [constructor|].
  apply StronglySorted_inv in Hs as [Hs Hall].
  constructor; [by apply IH|].
  destruct Hshow as (_ & _ & _ & _ & _ & Hc & _).
  clear IH Hs. induction Hrest as [|kp' it' rows its Hshow' _ IH']; [constructor|].
  apply Forall_cons in Hall as [Hhd Hall].
  constructor; [|by apply IH'].
  destruct Hshow' as (_ & _ & _ & _ & _ & Hc' & _).
  unfold newer_first in Hhd. lia.
Qed.

Lemma X14_newest_first_witness :
  StronglySorted (fun a b => it_createdAt b <= it_createdAt a)
    [mkPaymentItem "a5" 100 COMPLETED "CHAPA" None 50 50 None;
     mkPaymentItem "a3" 100 COMPLETED "CHAPA" None 30 30 None;
     mkPaymentItem "a1" 100 COMPLETED "CHAPA" None 10 10 None].
Proof.
  apply (X14_newest_first Ledger.strict (Ledger.page_of "1" "10" (Some "COMPLETED"))
           Ledger.ledger 1 10 200 _
           (mkPagination 3 (Num 1) (Num 10) (Num 1)));
    [unfold regular, max_int32; repeat split; (reflexivity || lia)
    | vm_compute; reflexivity].
Defined.

(** X16.  When [parseInt] finds the integer 0 in [limit] and an integer of
    at least 1 in [page], the listing is answered 200 with an empty list;
    the total is still reported, page and limit are echoed, and the number
    of pages is [null]. *)
Theorem X16_limit_zero (rt : Runtime) (req : ListRequest) (d : DB) (page : Z)
    (client : Client) :
  clients d !! l_user req = Some client ->
  pageNum rt req = Num page -> 1 <= page -> limitNum rt req = Num 0 ->
  getPayments rt req d =
  Listed 200 []
    (mkPagination (payment_count d (l_user req) (status_filter req))
       (Num page) (Num 0) Null).
Proof.
  intros Hc Hp Hpage Hl.
  rewrite (getPayments_regular rt req d page 0).
  - rewrite Hc. done.
  - unfold regular, max_int32. repeat split; (done || lia).
Qed.

Lemma X16_limit_zero_witness :
  getPayments Ledger.strict (Ledger.page_of "2" "0" None) Ledger.ledger =
  Listed 200 [] (mkPagination 5 (Num 2) (Num 0) Null).
Proof.
  apply (X16_limit_zero Ledger.strict (Ledger.page_of "2" "0" None)
           Ledger.ledger 2 (mkClient "c1")); [reflexivity | reflexivity | lia | reflexivity].
Defined.

(** ** All the pages together *)

Lemma listed_ids_regular rt req d page limit code items pg :
  regular rt req page limit ->
  getPayments rt req d = Listed code items pg ->
  listed_ids (getPayments rt req d)
  = map fst (page_rows d (l_user req) (status_filter req) page limit).
Proof.
  intros Hreg Hget.
  destruct (getPayments_listed rt req d page limit code items pg)
    as (Hfmt & _ & _); [done..|].
  rewrite Hget. simpl. apply format_payments_Forall2 in Hfmt. clear Hget.
  induction Hfmt as [|kp it rows its Hshow _ IH]; [done|].
  simpl. rewrite IH. by destruct Hshow as (-> & _).
Qed.

Lemma concat_chunks {A B} (f : A -> list B) (L : list B) (k : nat) (l : list A) :
  forall off,
    (forall i a, l !! i = Some a -> f a = take k (drop ((off + i) * k) L)) ->
    concat (map f l) = take (length l * k) (drop (off * k) L).
Proof.
  induction l as [|a l IH]; intros off Hl; simpl; [done|].
  rewrite (Hl 0%nat a eq_refl), Nat.add_0_r.
  rewrite (IH (S off)).
  - rewrite <- take_take_drop, drop_drop. do 3 f_equal. lia.
  - intros i b Hb. rewrite (Hl (S i) b Hb). do 3 f_equal. lia.
Qed.

Lemma strictly_sorted (l : list (string * Payment)) :
  StronglySorted newer_first l ->
  NoDup (map (fun kp => createdAt (snd kp)) l) ->
  StronglySorted strictly_newer_first l.
Proof.
  induction 1 as [|x l Hl IH Hx]; intros Hnd; [constructor|].
  simpl in Hnd. apply NoDup_cons in Hnd as [Hnotin Hnd].
  constructor; [by apply IH|].
  apply Forall_forall. intros y Hy.
  rewrite Forall_forall in Hx. specialize (Hx y Hy).
  unfold newer_first in Hx. unfold strictly_newer_first.
  destruct (decide (createdAt (snd y) = createdAt (snd x))) as [Heq|Hne]; [|lia].
  exfalso. apply Hnotin. rewrite <- Heq.
  apply (list_elem_of_fmap_2 (fun kp => createdAt (snd kp))) in Hy. done.
Qed.

Lemma NoDup_map_filter {A B} (f : A -> B) (P : A -> bool) (l : list A) :
  NoDup (map f l) -> NoDup (map f (List.filter P l)).
Proof.
  induction l as [|x l IH]; simpl; [done|].
  intros [Hx Hl]%NoDup_cons. destruct (P x); simpl; [|by apply IH].
  apply NoDup_cons. split; [|by apply IH].
  intros Hin. apply Hx.
  apply list_elem_of_fmap in Hin as (y & -> & Hy).
  apply list_elem_of_fmap. exists y. split; [done|].
  apply list_elem_of_In. apply list_elem_of_In, filter_In in Hy. tauto.
Qed.

(** X15.  When the caller's matching payments are no more than 2147483647
    and have pairwise different [createdAt], the pages 1, 2, ... up to the
    reported number of pages, asked with the same positive limit of at most
    2147483647 and the same filter, list every matching payment of the
    caller exactly once, in strictly decreasing [createdAt]. *)
Theorem X15_pages_partition (rt : Runtime) (d : DB) (uid : string)
    (f : option PaymentStatus) (limit : Z) (reqs : list ListRequest) :
  0 < limit <= max_int32 ->
  payment_count d uid f <= max_int32 ->
  NoDup (map (fun kp => createdAt (snd kp)) (payment_where d uid f)) ->
  pages_of (payment_count d uid f) (Num limit) = Num (Z.of_nat (length reqs)) ->
  (forall i req, reqs !! i = Some req ->
     l_user req = uid /\ status_filter req = f /\
     limitNum rt req = Num limit /\ pageNum rt req = Num (Z.of_nat i + 1) /\
     exists items pg, getPayments rt req d = Listed 200 items pg) ->
  exists rows,
    concat (map (fun req => listed_ids (getPayments rt req d)) reqs) = map fst rows /\
    rows ≡ₚ payment_where d uid f /\
    StronglySorted strictly_newer_first rows /\
    NoDup (map fst rows).
Proof.
  intros Hpos Hmax Hnd Hpages Hreqs.
  set (L := orderBy_createdAt_desc (payment_where d uid f)).
  assert (HL : L ≡ₚ payment_where d uid f) by apply orderBy_createdAt_desc_perm.
  apply pages_of_bounds in Hpages as [_ Hpages]; [|lia].
  exists L. split; [|split; [done|split]].
  - rewrite (concat_chunks _ (map fst L) (Z.to_nat limit) reqs 0%nat).
    + rewrite drop_0. apply take_ge. rewrite length_map, HL.
      unfold payment_count in Hpages. nia.
    + intros i req Hi.
      destruct (Hreqs i req Hi) as (Hu & Hf & Hl & Hp & items & pg & Hget).
      apply lookup_lt_Some in Hi.
      rewrite (listed_ids_regular rt req d (Z.of_nat i + 1) limit 200 items pg).
      * unfold page_rows. rewrite Hu, Hf. fold L.
        rewrite <- firstn_map, <- skipn_map. do 2 f_equal. simpl. nia.
      * unfold regular. do 4 (split; [done || lia|]). nia.
      * done.
  - apply strictly_sorted; [apply orderBy_createdAt_desc_sorted|].
    by rewrite HL.
  - rewrite HL. unfold payment_where.
    apply NoDup_map_filter, NoDup_fst_map_to_list.
Qed.

Lemma X15_pages_partition_witness :
  exists rows,
    concat (map (fun req => listed_ids (getPayments Ledger.strict req Ledger.ledger))
              [Ledger.page_of "1" "2" None; Ledger.page_of "2" "2" None;
               Ledger.page_of "3" "2" None])
      = map fst rows /\
    rows ≡ₚ payment_where Ledger.ledger "u1" None /\
    StronglySorted strictly_newer_first rows /\
    NoDup (map fst rows).
Proof.
  apply (X15_pages_partition Ledger.strict Ledger.ledger "u1" None 2
           [Ledger.page_of "1" "2" None; Ledger.page_of "2" "2" None;
            Ledger.page_of "3" "2" None]).
  - unfold max_int32. lia.
  - vm_compute. discriminate.
  - apply (bool_decide_unpack _). vm_compute. exact I.
  - vm_compute. reflexivity.
  - intros i req Hi.
    destruct i as [|[|[|i]]]; simpl in Hi; try discriminate;
      injection Hi as <-; (repeat split; [reflexivity..|]);
      eexists _, _; vm_compute; reflexivity.
Defined.

Example pages_of_ledger :
  listed_ids (getPayments Ledger.strict (Ledger.page_of "1" "2" None) Ledger.ledger)
    = ["a5"; "a4"] /\
  listed_ids (getPayments Ledger.strict (Ledger.page_of "2" "2" None) Ledger.ledger)
    = ["a3"; "a2"] /\
  listed_ids (getPayments Ledger.strict (Ledger.page_of "3" "2" None) Ledger.ledger)
    = ["a1"] /\
  listed_ids (getPayments Ledger.strict (Ledger.page_of "4" "2" None) Ledger.ledger)
    = [].
Proof. vm_compute. done. Qed.

(** * The e-mail configuration test *)

(** X17.  The configuration test reports success exactly when it reaches
    the stage "completed", and that happens exactly when a recipient was
    given, both credentials are set in the environment, the transport could
    be created, the server verified the connection and the test mail was
    accepted. *)
Theorem X17_email_test_success (m : Mailer) (testEmail : option string) :
  (success (fst (testEmailConfiguration m testEmail)) = true <->
   stage (fst (testEmailConfiguration m testEmail)) = "completed") /\
  (success (fst (testEmailConfiguration m testEmail)) = true <->
   exists addr messageId,
     present testEmail = Some addr /\
     getenv m "EMAIL_USER" <> None /\ getenv m "EMAIL_PASSWORD" <> None /\
     createTransport m = None /\
     transport_verify m = inr true /\
     transport_sendMail m
       (mkMailOptions (test_from m) addr "Wedding Planner - Email Configuration Test")
     = inr messageId).
Proof.
  unfold testEmailConfiguration, missingVars. simpl.
  destruct (present testEmail) as [addr|]; simpl;
    [|split; split; [done|done|done|by intros (? & ? & ? & _)]].
  destruct (getenv m "EMAIL_USER") as [u|] eqn:Hu; simpl;
    [|split; split; [done|done|done|by intros (? & ? & _ & ? & _)]].
  destruct (getenv m "EMAIL_PASSWORD") as [pw|] eqn:Hpw; simpl;
    [|split; split; [done|done|done|by intros (? & ? & _ & _ & ? & _)]].
  destruct (createTransport m) as [e|]; simpl;
    [split; split; [done|done|done|by intros (? & ? & _ & _ & _ & ? & _)]|].
  destruct (transport_verify m) as [e|[|]]; simpl;
    [split; split; [done|done|done|by intros (? & ? & _ & _ & _ & _ & ? & _)]|
     |split; split; [done|done|done|by intros (? & ? & _ & _ & _ & _ & ? & _)]].
  destruct (transport_sendMail m _) as [e|id] eqn:Hsend; simpl.
  - split; split; [done|done|done|].
    intros (a & i & [= <-] & _ & _ & _ & _ & Hs). congruence.
  - split; split; [done|done| |done].
    intros _. exists addr, id. done.
Qed.

(** X18.  The configuration test contacts the mail server only when a
    recipient was given and both credentials are set; it sends the test
    mail only after the server verified the connection, and only to the
    recipient that was given; it makes at most one verification and one
    send. *)
Theorem X18_email_test_calls (m : Mailer) (testEmail : option string) :
  (present testEmail = None \/ getenv m "EMAIL_USER" = None \/
   getenv m "EMAIL_PASSWORD" = None ->
   snd (testEmailConfiguration m testEmail) = []) /\
  (forall o, SendMailCall o ∈ snd (testEmailConfiguration m testEmail) ->
     transport_verify m = inr true /\ present testEmail = Some (mo_to o) /\
     mo_subject o = "Wedding Planner - Email Configuration Test") /\
  (snd (testEmailConfiguration m testEmail) = [] \/
   snd (testEmailConfiguration m testEmail) = [VerifyCall] \/
   exists o, snd (testEmailConfiguration m testEmail) = [VerifyCall; SendMailCall o]).
Proof.
  unfold testEmailConfiguration, missingVars. simpl.
  destruct (present testEmail) as [addr|]; simpl.
  2:{ split; [done|]. split; [|by left]. by intros o ?%elem_of_nil. }
  destruct (getenv m "EMAIL_USER") as [u|] eqn:Hu; simpl.
  2:{ split; [done|]. split; [|by left]. by intros o ?%elem_of_nil. }
  destruct (getenv m "EMAIL_PASSWORD") as [pw|] eqn:Hpw; simpl.
  2:{ split; [done|]. split; [|by left]. by intros o ?%elem_of_nil. }
  split; [by intros [?|[?|?]]|].
  destruct (createTransport m) as [e|]; simpl.
  { split; [|by left]. by intros o ?%elem_of_nil. }
  destruct (transport_verify m) as [e|[|]]; simpl.
  - split; [|right; by left].
    intros o [?|?%elem_of_nil]%elem_of_cons; done.
  - assert (Hmem : forall o o',
              SendMailCall o ∈ [VerifyCall; SendMailCall o'] -> o = o').
    { intros o o' [?|[?|?%elem_of_nil]%elem_of_cons]%elem_of_cons;
        [done|congruence|done]. }
    destruct (transport_sendMail m _) as [e|id]; simpl.
    + split; [|right; right; eauto]. intros o ->%Hmem. done.
    + split; [|right; right; eauto]. intros o ->%Hmem. done.
  - split; [|right; by left].
    intros o [?|?%elem_of_nil]%elem_of_cons; done.
Qed.

(** X19.  When a recipient was given, the test stops at the stage
    "configuration" exactly when a credential is unset or empty, and its
    message then names the unset variables, EMAIL_USER before
    EMAIL_PASSWORD, separated by a comma and a space. *)
Theorem X19_email_test_configuration (m : Mailer) (testEmail : option string)
    (addr : string) :
  present testEmail = Some addr ->
  (stage (fst (testEmailConfiguration m testEmail)) = "configuration" <->
   getenv m "EMAIL_USER" = None \/ getenv m "EMAIL_PASSWORD" = None) /\
  (getenv m "EMAIL_USER" = None -> getenv m "EMAIL_PASSWORD" = None ->
   message (fst (testEmailConfiguration m testEmail)) =
   "Missing required environment variables: EMAIL_USER, EMAIL_PASSWORD") /\
  (getenv m "EMAIL_USER" = None -> getenv m "EMAIL_PASSWORD" <> None ->
   message (fst (testEmailConfiguration m testEmail)) =
   "Missing required environment variables: EMAIL_USER") /\
  (getenv m "EMAIL_USER" <> None -> getenv m "EMAIL_PASSWORD" = None ->
   message (fst (testEmailConfiguration m testEmail)) =
   "Missing required environment variables: EMAIL_PASSWORD").
Proof.
  intros Haddr. unfold testEmailConfiguration, missingVars. rewrite Haddr. simpl.
  destruct (getenv m "EMAIL_USER") as [u|] eqn:Hu,
           (getenv m "EMAIL_PASSWORD") as [pw|] eqn:Hpw; simpl.
  - split; [|done].
    destruct (createTransport m) as [e|]; simpl; [split; [done|by intros [?|?]]|].
    destruct (transport_verify m) as [e|[|]]; simpl;
      [split; [done|by intros [?|?]]| |split; [done|by intros [?|?]]].
    destruct (transport_sendMail m _); simpl; split; done || by intros [?|?].
  - split; [split; [by right|done]|]. done.
  - split; [split; [by left|done]|]. done.
  - split; [split; [by left|done]|]. done.
Qed.

Lemma X19_email_test_configuration_witness :
  message (fst (testEmailConfiguration Mailbox.no_password (Some "bride@example.com")))
  = "Missing required environment variables: EMAIL_PASSWORD".
Proof.
  refine (proj2 (proj2 (proj2
            (X19_email_test_configuration Mailbox.no_password
               (Some "bride@example.com") "bride@example.com" _))) _ _).
  - reflexivity.
  - vm_compute. discriminate.
  - vm_compute. reflexivity.
Defined.

Example email_test_stages :
  stage (fst (testEmailConfiguration Mailbox.working None)) = "validation" /\
  stage (fst (testEmailConfiguration Mailbox.no_password (Some "bride@example.com")))
    = "configuration" /\
  testEmailConfiguration Mailbox.bad_login (Some "bride@example.com") =
    (mkTestResult false "connection" "Connection verification failed: Invalid login"
       (TransportError "Error" (Some "EAUTH") (Some "AUTH PLAIN")), [VerifyCall]) /\
  success (fst (testEmailConfiguration Mailbox.working (Some "bride@example.com")))
    = true.
Proof. vm_compute. done. Qed.
